(** * BLS dashboard pipeline: fetcher and transformer

    A shallow embedding of [data_fetcher.py] (class [BLSDataFetcher]) and
    [utils.py] ([calculate_changes], [get_latest_metrics]).

    - A DataFrame is the list of its rows, in stored order; the columns are
      the fields of the row record.  [get_latest_metrics] selects a column
      before it looks at the rows, so its argument is a [DataFrame], which
      tells the frame without columns from a frame without rows.
    - Python exceptions are values of [exn]; code that may raise lives in
      the [result] monad and [try_except] is the [try]/[except] statement.
    - The builtins [float] and [int], [pandas.to_datetime] and IEEE
      arithmetic are an interface ([Builtins]); every general theorem holds
      for each implementation of it.  [Reference] is an implementation on
      plain decimal numerals and ISO dates, used to run the model.
    - The upstream response is a record per JSON object of the documented
      shape; a field is [None] when the key is absent from the object.
    - [print] has no effect here; what remains of a [print] is the
      evaluation of its argument, which may raise. *)

From Stdlib Require Import ZArith String Ascii List QArith Lia DecimalString.
From stdpp Require Import base list strings sorting.

Open Scope string_scope.
Open Scope list_scope.
Open Scope Z_scope.

(** ** Exceptions *)

Inductive exn : Type :=
| KeyError (key : string)
| ValueError (msg : string)
| ConnectionError
| HTTPError (status_code : Z)
| JSONDecodeError.

Inductive result (A : Type) : Type :=
| Return (a : A)
| Raise (e : exn).
Arguments Return {A} a.
Arguments Raise {A} e.

#[global] Instance result_ret : MRet result := fun _ a => Return a.
#[global] Instance result_bind : MBind result := fun _ _ f m =>
  match m with
  | Return a => f a
  | Raise e => Raise e
  end.

(** [try: body except Exception as e: handler e] *)
Definition try_except {A} (body : result A) (handler : exn -> result A) : result A :=
  match body with
  | Return a => Return a
  | Raise e => handler e
  end.

(** [d[key]] on a JSON object whose key may be absent. *)
Definition getitem {A} (key : string) (field : option A) : result A :=
  match field with
  | Some v => Return v
  | None => Raise (KeyError key)
  end.

(** Sequential loop that extends one accumulator: the first exception
    raised by an iteration ends the loop. *)
Fixpoint for_each {A B} (body : A -> result (list B)) (l : list A) : result (list B) :=
  match l with
  | [] => Return []
  | x :: l' =>
      rows ← body x;
      rest ← for_each body l';
      Return (rows ++ rest)
  end.

(** ** Dates *)

Record Timestamp : Type := mkTimestamp { ts_year : Z; ts_month : Z; ts_day : Z }.

Definition ts_leb (a b : Timestamp) : bool :=
  if ts_year a <? ts_year b then true
  else if ts_year a =? ts_year b then
    if ts_month a <? ts_month b then true
    else if ts_month a =? ts_month b then ts_day a <=? ts_day b
    else false
  else false.

Definition ts_le (a b : Timestamp) : Prop := ts_leb a b = true.

#[global] Instance ts_le_dec a b : Decision (ts_le a b).
Proof. unfold ts_le. apply _. Defined.

(** ** Builtins taken as an interface *)

Class Builtins : Type := {
  float64 : Type;
  (** [float(s)]; [None] stands for [ValueError]. *)
  py_float : string -> option float64;
  (** [int(s)]; [None] stands for [ValueError]. *)
  py_int : string -> option Z;
  (** [pd.to_datetime] on one cell; [None] stands for a parse error. *)
  to_datetime : string -> option Timestamp;
  fsub : float64 -> float64 -> float64;
  fdiv : float64 -> float64 -> float64;
  fmul : float64 -> float64 -> float64;
  f_1 : float64;
  f_100 : float64
}.

(** ** Upstream response *)

Record Item : Type := mkItem {
  item_year : option string;
  item_period : option string;
  item_value : option string
}.

Record Series : Type := mkSeries {
  seriesID : option string;
  data : option (list Item)
}.

Record ResultsObj : Type := mkResults { series : option (list Series) }.

Record Json : Type := mkJson {
  status : option string;
  message : option (list string);
  Results : option ResultsObj
}.

(** What [requests.post] followed by [response.json()] can yield. *)
Inductive http_result : Type :=
| PostRaised
| Response (status_code : Z) (body : option Json).

Record Payload : Type := mkPayload {
  seriesid : list string;
  startyear : string;
  endyear : string
}.

(** ** Rows *)

Record Row (D : Type) {F : Type} : Type := mkRow {
  Series_ID : string;
  Series_Name : string;
  Date : D;
  Value : F;
  Year : Z;
  Month : Z
}.
Arguments Row D F : clear implicits.
Arguments mkRow {D F}.
Arguments Series_ID {D F}.
Arguments Series_Name {D F}.
Arguments Date {D F}.
Arguments Value {D F}.
Arguments Year {D F}.
Arguments Month {D F}.

(** ** Formatting *)

Definition str_of_N (n : N) : string := NilZero.string_of_uint (N.to_uint n).

(** [str(z)] *)
Definition str (z : Z) : string :=
  if z <? 0 then "-" +:+ str_of_N (Z.abs_N z) else str_of_N (Z.to_N z).

(** [f"{z:02d}"]: the sign counts in the width. *)
Definition fmt_02d (z : Z) : string :=
  if (0 <=? z) && (z <? 10) then "0" +:+ str z else str z.

(** [s[1:]] *)
Definition tail_from_1 (s : string) : string :=
  match s with
  | EmptyString => EmptyString
  | String _ rest => rest
  end.

(** ** Fetcher ([data_fetcher.py]) *)

(** [self.series_map]: a dict literal, kept in insertion order. *)
Definition series_map : list (string * string) :=
  [ ("LNS14000000", "Unemployment Rate");
    ("CES0000000001", "Total Nonfarm Employment");
    ("CES0500000003", "Average Hourly Earnings");
    ("CUSR0000SA0", "CPI (Seasonally Adjusted)") ].

(** [self.series_map.get(key, default)] *)
Definition series_map_get (key default : string) : string :=
  match list_find (fun kv => kv.1 = key) series_map with
  | Some (_, kv) => kv.2
  | None => default
  end.

(** [response.raise_for_status()]: requests raises for 4xx and 5xx only. *)
Definition raise_for_status (status_code : Z) : result unit :=
  if (400 <=? status_code) && (status_code <? 600)
  then Raise (HTTPError status_code)
  else Return tt.

(** [response.json()] *)
Definition response_json (body : option Json) : result Json :=
  match body with
  | Some json_data => Return json_data
  | None => Raise JSONDecodeError
  end.

(** Order of [sort_values(by=['Series Name', 'Date'])]. *)
Definition name_date_leb {F} (a b : Row Timestamp F) : bool :=
  match String.compare (Series_Name a) (Series_Name b) with
  | Lt => true
  | Eq => ts_leb (Date a) (Date b)
  | Gt => false
  end.

Definition name_date_le {F} (a b : Row Timestamp F) : Prop := name_date_leb a b = true.

#[global] Instance name_date_le_dec {F} (a b : Row Timestamp F) : Decision (name_date_le a b).
Proof. unfold name_date_le. apply _. Defined.

Definition with_Date {D D' F} (r : Row D F) (d : D') : Row D' F :=
  mkRow (Series_ID r) (Series_Name r) d (Value r) (Year r) (Month r).

(** [if not arg: arg = fallback], for an optional string argument: [None]
    and the empty string are false. *)
Definition if_not (arg : option string) (fallback : string) : string :=
  match arg with
  | None => fallback
  | Some s => if String.eqb s "" then fallback else s
  end.

(** The request body of [fetch_data], before [json.dumps]. *)
Definition build_payload (now_year : Z) (start_year end_year : option string) : Payload :=
  let start_year := if_not start_year (str (now_year - 9)) in
  let end_year := if_not end_year (str now_year) in
  let series_ids := map fst series_map in
  mkPayload series_ids start_year end_year.

Section Fetcher.
Context `{Builtins}.

Definition RawRow : Type := Row string float64.
Definition Observation : Type := Row Timestamp float64.

Definition int (s : string) : result Z :=
  match py_int s with
  | Some z => Return z
  | None => Raise (ValueError "invalid literal for int()")
  end.

(** Body of [for item in series['data']]: the rows it appends. *)
Definition process_item (series_id series_name : string) (item : Item)
  : result (list RawRow) :=
  year ← getitem "year" (item_year item);
  period ← getitem "period" (item_period item);
  value ← getitem "value" (item_value item);
  if String.leb "M01" period && String.leb period "M12" then
    month ← int (tail_from_1 period);
    let date := year +:+ "-" +:+ fmt_02d month +:+ "-01" in
    (* try: float(value) except ValueError: None *)
    let float_value := py_float value in
    match float_value with
    | Some float_value =>
        year_int ← int year;
        Return [mkRow series_id series_name date float_value year_int month]
    | None => Return []
    end
  else Return [].

(** Body of [for series in json_data['Results']['series']]. *)
Definition process_series (s : Series) : result (list RawRow) :=
  series_id ← getitem "seriesID" (seriesID s);
  let series_name := series_map_get series_id series_id in
  items ← getitem "data" (data s);
  for_each (process_item series_id series_name) items.

(** [df['Date'] = pd.to_datetime(df['Date'])] *)
Definition convert_Date (r : RawRow) : result (list Observation) :=
  match to_datetime (Date r) with
  | Some d => Return [with_Date r d]
  | None => Raise (ValueError "to_datetime")
  end.

Definition sort_values_Series_Name_Date (df : list Observation) : list Observation :=
  merge_sort name_date_le df.

Definition _process_data (json_data : Json) : result (list Observation) :=
  match Results json_data with
  | None => Return []
  | Some results =>
      match series results with
      | None => Return []
      | Some series_list =>
          all_data ← for_each process_series series_list;
          match all_data with
          | [] => Return []
          | _ :: _ =>
              df ← for_each convert_Date all_data;
              Return (sort_values_Series_Name_Date df)
          end
      end
  end.

(** [requests.post]; [raise_for_status]; [response.json()]. *)
Definition request (post : Payload -> http_result) (payload : Payload) : result Json :=
  match post payload with
  | PostRaised => Raise ConnectionError
  | Response status_code body =>
      _ ← raise_for_status status_code;
      response_json body
  end.

(** [now_year] is [datetime.now().year]; [post] is the remote end. *)
Definition fetch_data (now_year : Z) (post : Payload -> http_result)
    (start_year end_year : option string) : result (list Observation) :=
  let payload := build_payload now_year start_year end_year in
  try_except
    (json_data ← request post payload;
     st ← getitem "status" (status json_data);
     _ ← (if String.eqb st "REQUEST_SUCCEEDED" then Return tt
          else (* the f-string of the print evaluates json_data['message'] *)
            _ ← getitem "message" (message json_data); Return tt);
     _process_data json_data)
    (fun e => Return []).

End Fetcher.

(** ** Transformer ([utils.py]) *)

Record Enriched {F : Type} : Type := mkEnriched {
  base : Row Timestamp F;
  MoM_Change : option F;
  MoM_pct_Change : option F;
  YoY_pct_Change : option F
}.
Arguments Enriched F : clear implicits.

Record Metrics {F : Type} : Type := mkMetrics {
  date : Timestamp;
  value : F;
  mom_change : option F;
  mom_pct_change : option F;
  yoy_pct_change : option F
}.
Arguments Metrics F : clear implicits.

Definition string_le (a b : string) : Prop := String.leb a b = true.

#[global] Instance string_le_dec a b : Decision (string_le a b).
Proof. unfold string_le. apply _. Defined.

Definition Date_le {F} (a b : Row Timestamp F) : Prop := ts_le (Date a) (Date b).

#[global] Instance Date_le_dec {F} (a b : Row Timestamp F) : Decision (Date_le a b).
Proof. unfold Date_le. apply _. Defined.

Definition in_series {F} (name : string) (r : Row Timestamp F) : Prop :=
  Series_Name r = name.

#[global] Instance in_series_dec {F} name (r : Row Timestamp F) : Decision (in_series name r).
Proof. unfold in_series. apply _. Defined.

(** [df.groupby('Series Name')]: one group per distinct key, keys ascending,
    each group the rows of that key in stored order.  Names are strings, so
    no row has a missing key. *)
Definition group_keys {F} (df : list (Row Timestamp F)) : list string :=
  merge_sort string_le (remove_dups (Series_Name <$> df)).

Definition groupby_Series_Name {F} (df : list (Row Timestamp F))
  : list (string * list (Row Timestamp F)) :=
  (fun name => (name, filter (in_series name) df)) <$> group_keys df.

(** [group.sort_values('Date')].  pandas does not fix the order of rows of
    equal date; the properties below use only that the result is sorted and
    is a rearrangement of the group. *)
Definition sort_values_Date {F} (group : list (Row Timestamp F)) : list (Row Timestamp F) :=
  merge_sort Date_le group.

(** [pd.concat(objs)] raises on an empty list of frames. *)
Definition pd_concat {A} (objs : list (list A)) : result (list A) :=
  match objs with
  | [] => Raise (ValueError "No objects to concatenate")
  | _ :: _ => Return (concat objs)
  end.

Section Transformer.
Context `{Builtins}.

(** [s.shift(periods)]: the value [periods] rows earlier; [None] is the
    NaN of the rows that have no such predecessor. *)
Definition shift (periods : nat) (s : list float64) : list (option float64) :=
  take (length s) (replicate periods None ++ (Some <$> s)).

(** [s.diff()] is [s - s.shift(1)]. *)
Definition diff (s : list float64) : list (option float64) :=
  zip_with (fun v prev => fsub v <$> prev) s (shift 1 s).

(** [s.pct_change(periods)] is [s / s.shift(periods) - 1], on the values as
    stored: the filling of missing values that some pandas versions apply
    first is not part of the model. *)
Definition pct_change (periods : nat) (s : list float64) : list (option float64) :=
  zip_with (fun v prev => (fun p => fsub (fdiv v p) f_1) <$> prev) s (shift periods s).

(** [column * 100] *)
Definition times_100 (column : list (option float64)) : list (option float64) :=
  (fun cell : option float64 => (fun x => fmul x f_100) <$> cell) <$> column.

(** Body of [for name, group in df.groupby('Series Name')]. *)
Definition process_group (group : list Observation) : list (Enriched float64) :=
  let group := sort_values_Date group in
  let MoM := diff (Value <$> group) in
  let MoM_pct := times_100 (pct_change 1 (Value <$> group)) in
  let YoY_pct := times_100 (pct_change 12 (Value <$> group)) in
  zip_with (fun '(r, a, b) c => mkEnriched _ r a b c) (zip (zip group MoM) MoM_pct) YoY_pct.

Definition calculate_changes (df : list Observation) : result (list (Enriched float64)) :=
  let processed_dfs := (fun '(name, group) => process_group group) <$> groupby_Series_Name df in
  pd_concat processed_dfs.

End Transformer.

(** The dict built from the row [latest]. *)
Definition metrics_of {F} (latest : Enriched F) : Metrics F :=
  mkMetrics _ (Date (base latest)) (Value (base latest))
    (MoM_Change latest) (MoM_pct_Change latest) (YoY_pct_Change latest).

(** A frame as [get_latest_metrics] may be given it.  [pd.DataFrame()] and
    the frame built from an empty list of dicts have no column at all;
    every other frame has the columns of its rows, also when it has no
    row. *)
Inductive DataFrame (R : Type) : Type :=
| NoColumns
| Frame (rows : list R).
Arguments NoColumns {R}.
Arguments Frame {R} rows.

(** The frame that a table of the fetcher or of [load_data] stands for:
    their empty table is the frame without columns. *)
Definition frame_of {R} (rows : list R) : DataFrame R :=
  match rows with
  | [] => NoColumns
  | _ :: _ => Frame rows
  end.

(** [Return None] is the function's [return None]; without the column,
    [df['Series Name']] raises before the test of [series_data.empty]. *)
Definition get_latest_metrics {F} (df : DataFrame (Enriched F)) (series_name : string)
  : result (option (Metrics F)) :=
  match df with
  | NoColumns => Raise (KeyError "Series Name")
  | Frame rows =>
      let series_data := filter (fun e => in_series series_name (base e)) rows in
      match series_data with
      | [] => Return None
      | first :: _ =>
          (* series_data.iloc[-1] *)
          let latest := List.last series_data first in
          Return (Some (metrics_of latest))
      end
  end.

(** ** Dashboard ([app.py]) *)

Section App.
Context `{Builtins}.

(** [load_data]: fetch with the default window, then enrich unless the
    table is empty.  The empty frame is returned as it is; it is the empty
    list here.  The [st.cache_data] decorator is left out. *)
Definition load_data (now_year : Z) (post : Payload -> http_result)
  : result (list (Enriched float64)) :=
  df ← fetch_data now_year post None None;
  match df with
  | [] => Return []
  | _ :: _ => calculate_changes df
  end.

End App.

(** ** A reference implementation of the builtins

    Exact rationals stand for the floats.  [float] and [int] are covered on
    plain decimal numerals (optional sign, ASCII digits, for [float] an
    optional fraction) and [pd.to_datetime] on ISO dates [YYYY-MM-DD];
    every other string is rejected. *)

Module Reference.

Definition digit (c : ascii) : option Z :=
  let n := Z.of_N (N_of_ascii c) in
  if (48 <=? n) && (n <=? 57) then Some (n - 48) else None.

Fixpoint digits_from (acc : Z) (s : string) : option Z :=
  match s with
  | EmptyString => Some acc
  | String c rest =>
      match digit c with
      | Some d => digits_from (10 * acc + d) rest
      | None => None
      end
  end.

(** One or more digits. *)
Definition digits (s : string) : option Z :=
  match s with
  | EmptyString => None
  | _ => digits_from 0 s
  end.

Definition signed {A} (parse : string -> option A) (neg : A -> A) (s : string) : option A :=
  match s with
  | String "-" rest => neg <$> parse rest
  | String "+" rest => parse rest
  | _ => parse s
  end.

Definition parse_int : string -> option Z := signed digits Z.opp.

(** The part before the first ['.'] and, if there is one, the part after it. *)
Fixpoint split_point (s : string) : string * option string :=
  match s with
  | EmptyString => (EmptyString, None)
  | String "." rest => (EmptyString, Some rest)
  | String c rest => let '(a, b) := split_point rest in (String c a, b)
  end.

Definition unsigned_decimal (s : string) : option Q :=
  match split_point s with
  | (whole, None) => inject_Z <$> digits whole
  | (whole, Some frac) =>
      w ← digits whole;
      f ← digits frac;
      Some (Qred (inject_Z w + inject_Z f / inject_Z (10 ^ Z.of_nat (String.length frac))))
  end.

Definition parse_float : string -> option Q := signed unsigned_decimal Qopp.

Definition is_leap (y : Z) : bool :=
  ((y mod 4 =? 0) && negb (y mod 100 =? 0)) || (y mod 400 =? 0).

Definition days_in_month (y m : Z) : Z :=
  if m =? 2 then (if is_leap y then 29 else 28)
  else if (m =? 4) || (m =? 6) || (m =? 9) || (m =? 11) then 30
  else 31.

Definition parse_iso_date (s : string) : option Timestamp :=
  if (String.length s =? 10)%nat
     && String.eqb (substring 4 1 s) "-" && String.eqb (substring 7 1 s) "-"
  then
    y ← digits (substring 0 4 s);
    m ← digits (substring 5 2 s);
    d ← digits (substring 8 2 s);
    if (1 <=? m) && (m <=? 12) && (1 <=? d) && (d <=? days_in_month y m)
    then Some (mkTimestamp y m d) else None
  else None.

Definition builtins : Builtins := {|
  float64 := Q;
  py_float := parse_float;
  py_int := parse_int;
  to_datetime := parse_iso_date;
  fsub := fun a b => Qred (a - b);
  fdiv := fun a b => Qred (a / b);
  fmul := fun a b => Qred (a * b);
  f_1 := 1%Q;
  f_100 := 100%Q
|}.

End Reference.

(** ** Sample inputs, run on the reference builtins *)

Module Samples.

Definition item (year period value : string) : Item :=
  mkItem (Some year) (Some period) (Some value).

Definition body (status : string) (message : option (list string))
    (series : list Series) : Json :=
  mkJson (Some status) message (Some (mkResults (Some series))).

Definition unemployment (items : list Item) : Series :=
  mkSeries (Some "LNS14000000") (Some items).

(** The fetcher with its default window, the current year being 2026. *)
Definition fetch (answer : http_result) : result (list (Row Timestamp Q)) :=
  @fetch_data Reference.builtins 2026 (fun _ => answer) None None.

Definition row {F} (name : string) (year month : Z) (value : F) : Row Timestamp F :=
  mkRow name name (mkTimestamp year month 1) value year month.

(** One observation, answered with status 200 and a success status. *)
Definition one_observation : Json :=
  body "REQUEST_SUCCEEDED" (Some []) [unemployment [item "2024" "M01" "3.7"]].

Definition one_row : list (Row Timestamp Q) :=
  [mkRow "LNS14000000" "Unemployment Rate" (mkTimestamp 2024 1 1) 3.7%Q 2024 1].

(** A soft error: no success status, no [message] key, one observation. *)
Definition soft_error_without_message : Json :=
  body "REQUEST_NOT_PROCESSED" None [unemployment [item "2024" "M01" "3.7"]].

Definition soft_error_with_message : Json :=
  body "REQUEST_NOT_PROCESSED" (Some ["daily threshold reached"])
    [unemployment [item "2024" "M01" "3.7"]].


(** A period code that is not a monthly code but lies between them. *)
Definition period_M011 : Json :=
  body "REQUEST_SUCCEEDED" (Some []) [unemployment [item "2024" "M011" "3.7"]].

Definition period_M13 : Json :=
  body "REQUEST_SUCCEEDED" (Some [])
    [unemployment [item "2024" "M13" "3.6"; item "2024" "M01" "3.7"]].

(** An unparseable value next to a good observation. *)
Definition value_NA : Json :=
  body "REQUEST_SUCCEEDED" (Some [])
    [unemployment [item "2024" "M01" "3.7"; item "2024" "M02" "N/A"]].

Definition value_NA_period_M0A : Json :=
  body "REQUEST_SUCCEEDED" (Some [])
    [unemployment [item "2024" "M01" "3.7"; item "2024" "M0A" "N/A"]].

(** The second item has no [value] key. *)
Definition item_without_value : Json :=
  body "REQUEST_SUCCEEDED" (Some [])
    [unemployment [item "2024" "M01" "3.7"; mkItem (Some "2024") (Some "M02") None]].

Definition without_Results : Json :=
  mkJson (Some "REQUEST_NOT_PROCESSED") (Some []) None.

(** Fourteen months of one series, stored newest first, and two months of
    another stored between them. *)
Definition table : list (Row Timestamp Q) :=
  [ row "Unemployment Rate" 2024 2 3.9%Q;
    row "Unemployment Rate" 2024 1 3.7%Q;
    row "Unemployment Rate" 2023 12 3.7%Q;
    row "CPI" 2024 1 309.7%Q;
    row "Unemployment Rate" 2023 11 3.7%Q;
    row "Unemployment Rate" 2023 10 3.8%Q;
    row "Unemployment Rate" 2023 9 3.8%Q;
    row "Unemployment Rate" 2023 8 3.8%Q;
    row "Unemployment Rate" 2023 7 3.5%Q;
    row "CPI" 2024 2 311.1%Q;
    row "Unemployment Rate" 2023 6 3.6%Q;
    row "Unemployment Rate" 2023 5 3.7%Q;
    row "Unemployment Rate" 2023 4 3.4%Q;
    row "Unemployment Rate" 2023 3 3.5%Q;
    row "Unemployment Rate" 2023 2 3.6%Q;
    row "Unemployment Rate" 2023 1 3.4%Q ].

(** Three consecutive months of one series. *)
Definition three_months : list (Row Timestamp Q) :=
  [ row "Unemployment Rate" 2024 1 3.5%Q;
    row "Unemployment Rate" 2024 2 3.6%Q;
    row "Unemployment Rate" 2024 3 3.4%Q ].

(** An enriched table whose last stored row is not the newest. *)
Definition unsorted_enriched {F} (v : F) : list (Enriched F) :=
  [ mkEnriched _ (row "Unemployment Rate" 2024 2 v) None None None;
    mkEnriched _ (row "Unemployment Rate" 2024 1 v) None None None ].

End Samples.

(** Further inputs. *)
Module Inputs.

(** A table in which no series has two rows of one date, and the same rows
    stored in another order. *)
Definition stored : list (Row Timestamp Q) :=
  [ Samples.row "Unemployment Rate" 2024 2 3.9%Q;
    Samples.row "CPI" 2024 1 309.7%Q;
    Samples.row "Unemployment Rate" 2024 1 3.7%Q;
    Samples.row "CPI" 2024 2 311.1%Q ].

Definition reordered : list (Row Timestamp Q) :=
  [ Samples.row "CPI" 2024 2 311.1%Q;
    Samples.row "Unemployment Rate" 2024 1 3.7%Q;
    Samples.row "Unemployment Rate" 2024 2 3.9%Q;
    Samples.row "CPI" 2024 1 309.7%Q ].

(** Two series; the second has an annual average, an unparsable value and
    an identifier that is not in the catalog. *)
Definition two_series : Json :=
  Samples.body "REQUEST_SUCCEEDED" (Some [])
    [ Samples.unemployment [Samples.item "2024" "M02" "3.9"; Samples.item "2024" "M01" "3.7"];
      mkSeries (Some "XYZ") (Some [Samples.item "2023" "M13" "5.0";
                                   Samples.item "2023" "M12" "-";
                                   Samples.item "2023" "M11" "5.1"]) ].

End Inputs.

(** * Properties *)

(** ** Orders used by the sorts *)

Lemma ts_le_total : Total ts_le.
Proof.
  intros a b. unfold ts_le, ts_leb.
  repeat match goal with
         | |- context [if ?c then _ else _] => destruct c eqn:?
         end; auto; lia.
Qed.

Lemma Date_le_total {F} : Total (@Date_le F).
Proof. intros a b. apply ts_le_total. Qed.

Lemma string_le_total : Total string_le.
Proof. intros a b. apply String.leb_total. Qed.

Lemma name_date_le_total {F} : Total (@name_date_le F).
Proof.
  intros a b. unfold name_date_le, name_date_leb.
  rewrite (String.compare_antisym (Series_Name a) (Series_Name b)).
  destruct (String.compare (Series_Name b) (Series_Name a)); simpl; auto.
  apply (ts_le_total (Date a) (Date b)).
Qed.

(** ** Lagged columns *)

Section Lag.
Context `{Builtins}.

Lemma shift_length periods (s : list float64) : length (shift periods s) = length s.
Proof.
  unfold shift. rewrite length_take, length_app, length_replicate, length_fmap. lia.
Qed.

Lemma shift_lookup periods (s : list float64) (i : nat) :
  (i < length s)%nat ->
  shift periods s !! i
  = Some (if decide (i < periods)%nat then None else s !! (i - periods)%nat).
Proof.
  intros Hi. unfold shift. rewrite lookup_take_lt by done.
  destruct (decide (i < periods)%nat) as [Hlt|Hge].
  - rewrite lookup_app_l by (rewrite length_replicate; lia).
    apply lookup_replicate_2. done.
  - rewrite lookup_app_r by (rewrite length_replicate; lia).
    rewrite length_replicate, list_lookup_fmap.
    destruct (lookup_lt_is_Some_2 s (i - periods)%nat) as [v Hv]; [lia|].
    rewrite Hv. done.
Qed.

(** A column computed from each value and the value [periods] rows earlier. *)
Lemma lagged_lookup (g : float64 -> float64 -> float64) periods (s : list float64) i v :
  s !! i = Some v ->
  zip_with (fun v prev => g v <$> prev) s (shift periods s) !! i
  = Some (if decide (i < periods)%nat then None else g v <$> s !! (i - periods)%nat).
Proof.
  intros Hv. rewrite lookup_zip_with, Hv. simpl.
  rewrite shift_lookup by (eapply lookup_lt_Some; done). simpl.
  destruct (decide (i < periods)%nat); done.
Qed.

Lemma lagged_length (g : float64 -> option float64 -> option float64) periods (s : list float64) :
  length (zip_with g s (shift periods s)) = length s.
Proof. rewrite length_zip_with, shift_length. lia. Qed.

Lemma diff_lookup (s : list float64) i v :
  s !! i = Some v ->
  diff s !! i = Some (if decide (i < 1)%nat then None else fsub v <$> s !! (i - 1)%nat).
Proof. apply (lagged_lookup fsub 1). Qed.

Lemma pct_change_lookup periods (s : list float64) i v :
  s !! i = Some v ->
  pct_change periods s !! i
  = Some (if decide (i < periods)%nat then None
          else (fun p => fsub (fdiv v p) f_1) <$> s !! (i - periods)%nat).
Proof. apply (lagged_lookup (fun v p => fsub (fdiv v p) f_1) periods). Qed.

Lemma times_100_lookup column i (cell : option float64) :
  column !! i = Some cell ->
  times_100 column !! i = Some ((fun x => fmul x f_100) <$> cell).
Proof. intros Hc. unfold times_100. rewrite list_lookup_fmap, Hc. done. Qed.

(** The rows a group yields, position by position. *)
Lemma process_group_lookup (group : list Observation) i r :
  sort_values_Date group !! i = Some r ->
  process_group group !! i
  = Some (mkEnriched _ r
      (if decide (i < 1)%nat then None
       else (fun p => fsub (Value r) (Value p)) <$> sort_values_Date group !! (i - 1)%nat)
      (if decide (i < 1)%nat then None
       else (fun p => fmul (fsub (fdiv (Value r) (Value p)) f_1) f_100)
              <$> sort_values_Date group !! (i - 1)%nat)
      (if decide (i < 12)%nat then None
       else (fun p => fmul (fsub (fdiv (Value r) (Value p)) f_1) f_100)
              <$> sort_values_Date group !! (i - 12)%nat)).
Proof.
  intros Hr. unfold process_group.
  set (g := sort_values_Date group) in *.
  assert (Hv : (Value <$> g) !! i = Some (Value r))
    by (rewrite list_lookup_fmap, Hr; done).
  rewrite lookup_zip_with.
  assert (Hz : zip (zip g (diff (Value <$> g))) (times_100 (pct_change 1 (Value <$> g))) !! i
    = Some (r,
        (if decide (i < 1)%nat then None
         else fsub (Value r) <$> (Value <$> g) !! (i - 1)%nat),
        (fun x => fmul x f_100) <$>
        (if decide (i < 1)%nat then None
         else (fun p => fsub (fdiv (Value r) p) f_1) <$> (Value <$> g) !! (i - 1)%nat))).
  { apply lookup_zip_Some. split.
    - apply lookup_zip_Some. split; [done|]. apply diff_lookup. done.
    - apply times_100_lookup, pct_change_lookup. done. }
  rewrite Hz. simpl.
  rewrite (times_100_lookup _ _ _ (pct_change_lookup 12 _ _ _ Hv)). simpl.
  f_equal. rewrite !list_lookup_fmap.
  repeat case_decide; try done;
    repeat match goal with |- context [g !! ?k] => destruct (g !! k) end; done.
Qed.

Lemma process_group_length (group : list Observation) :
  length (process_group group) = length group.
Proof.
  unfold process_group.
  rewrite length_zip_with, !length_zip_with.
  unfold times_100. rewrite !length_fmap.
  unfold diff, pct_change. rewrite !lagged_length, !length_fmap.
  unfold sort_values_Date.
  rewrite (Permutation_length (merge_sort_Permutation Date_le group)).
  rewrite !Nat.min_id. done.
Qed.

Lemma process_group_base (group : list Observation) :
  base <$> process_group group = sort_values_Date group.
Proof.
  apply list_eq. intros i. rewrite list_lookup_fmap.
  destruct (sort_values_Date group !! i) as [r|] eqn:Hr.
  - rewrite (process_group_lookup _ _ _ Hr). done.
  - apply lookup_ge_None in Hr.
    rewrite (proj2 (lookup_ge_None (process_group group) i)); [done|].
    rewrite process_group_length.
    unfold sort_values_Date in Hr.
    rewrite (Permutation_length (merge_sort_Permutation Date_le group)) in Hr. exact Hr.
Qed.

End Lag.

(** ** Groups *)

Section Groups.
Context {F : Type}.
Implicit Types (df : list (Row Timestamp F)) (name : string).

Lemma group_keys_NoDup df : NoDup (group_keys df).
Proof.
  unfold group_keys.
  rewrite (merge_sort_Permutation string_le). apply NoDup_remove_dups.
Qed.

Lemma elem_of_group_keys df name : name ∈ group_keys df <-> name ∈ Series_Name <$> df.
Proof.
  unfold group_keys.
  rewrite (merge_sort_Permutation string_le). apply elem_of_remove_dups.
Qed.

Lemma group_keys_nil df : group_keys df = [] -> df = [].
Proof.
  intros Hk. destruct df as [|r df]; [done|].
  assert (Hin : Series_Name r ∈ group_keys (r :: df))
    by (apply elem_of_group_keys; rewrite fmap_cons; left).
  rewrite Hk in Hin. by apply elem_of_nil in Hin.
Qed.

Lemma filter_keys_cons name (keys : list string) df :
  name ∉ keys ->
  filter (fun r => Series_Name r ∈ name :: keys) df
  ≡ₚ filter (in_series name) df ++ filter (fun r => Series_Name r ∈ keys) df.
Proof.
  intros Hfresh. induction df as [|r df IH]; [done|].
  rewrite !filter_cons.
  destruct (decide (in_series name r)) as [Hn|Hn]; unfold in_series in Hn.
  - rewrite decide_True by (subst; left).
    rewrite decide_False by (subst; done).
    simpl. by rewrite IH.
  - destruct (decide (Series_Name r ∈ keys)) as [Hk|Hk].
    + rewrite decide_True by (by right).
      rewrite IH. apply Permutation_middle.
    + rewrite decide_False; [done|].
      intros [?|?]%elem_of_cons; done.
Qed.

(** The groups of distinct keys are a rearrangement of the rows they cover. *)
Lemma concat_groups_Permutation (keys : list string) df :
  NoDup keys ->
  concat ((fun name => filter (in_series name) df) <$> keys)
  ≡ₚ filter (fun r => Series_Name r ∈ keys) df.
Proof.
  induction 1 as [|name keys Hfresh _ IH]; simpl.
  - induction df as [|r df IHdf]; [done|].
    rewrite filter_cons, decide_False; [done|]. apply not_elem_of_nil.
  - rewrite IH. symmetry. by apply filter_keys_cons.
Qed.

Lemma groups_cover df :
  concat ((fun name => filter (in_series name) df) <$> group_keys df) ≡ₚ df.
Proof.
  rewrite concat_groups_Permutation by apply group_keys_NoDup.
  assert (Hall : Forall (fun r => Series_Name r ∈ group_keys df) df).
  { apply Forall_forall. intros r Hr. apply elem_of_group_keys.
    apply list_elem_of_fmap. eauto. }
  revert Hall. generalize (group_keys df). intros keys Hall.
  induction Hall as [|r l Hr _ IHl]; [done|].
  rewrite filter_cons, decide_True by done. by rewrite IHl.
Qed.

Lemma elem_of_concat {E} (e : E) (ls : list (list E)) :
  e ∈ concat ls <-> exists l, e ∈ l /\ l ∈ ls.
Proof.
  rewrite list_elem_of_In, in_concat. split; intros (l & H1 & H2); exists l.
  - by rewrite !list_elem_of_In.
  - by rewrite <- !list_elem_of_In.
Qed.

(** In a concatenation over distinct keys the frame of one key is a
    contiguous block; no row of that key lies before or after it. *)
Lemma concat_block {E} (key_of : E -> string) (f : string -> list E)
    (keys : list string) name :
  NoDup keys -> name ∈ keys ->
  (forall k e, e ∈ f k -> key_of e = k) ->
  exists before after,
    concat (f <$> keys) = before ++ f name ++ after
    /\ Forall (fun e => key_of e <> name) (before ++ after).
Proof.
  intros Hnd Hin Hkey.
  apply list_elem_of_split in Hin as (k1 & k2 & ->).
  apply NoDup_app in Hnd as (_ & Hdisj & Hnd2).
  apply NoDup_cons in Hnd2 as [Hk2 _].
  exists (concat (f <$> k1)), (concat (f <$> k2)). split.
  - rewrite fmap_app, fmap_cons, concat_app. done.
  - apply Forall_app. split; apply Forall_forall; intros e He Heq;
      apply elem_of_concat in He as (l & He & Hl);
      apply list_elem_of_fmap in Hl as (k & -> & Hk);
      apply Hkey in He; subst k.
    + apply (Hdisj _ Hk). rewrite <- Heq. left.
    + apply Hk2. rewrite <- Heq. done.
Qed.

End Groups.

(** ** calculate_changes *)

Lemma filter_all {A} (P : A -> Prop) `{forall x, Decision (P x)} (l : list A) :
  Forall P l -> filter P l = l.
Proof.
  induction 1 as [|x l Hx _ IH]; [done|].
  by rewrite filter_cons, decide_True, IH.
Qed.

Lemma filter_none {A} (P : A -> Prop) `{forall x, Decision (P x)} (l : list A) :
  Forall (fun x => ~ P x) l -> filter P l = [].
Proof.
  induction 1 as [|x l Hx _ IH]; [done|].
  by rewrite filter_cons, decide_False.
Qed.

Section Changes.
Context `{Builtins}.
Implicit Types (df : list Observation) (name : string).

Lemma calculate_changes_nonempty df :
  df <> [] ->
  calculate_changes df
  = Return (concat ((fun name => process_group (filter (in_series name) df))
                      <$> group_keys df)).
Proof.
  intros Hne. unfold calculate_changes, groupby_Series_Name.
  rewrite <- list_fmap_compose.
  destruct (group_keys df) as [|k ks] eqn:Hk.
  - by apply group_keys_nil in Hk.
  - done.
Qed.

Lemma sort_values_Date_in_series name (group : list Observation) :
  Forall (in_series name) group -> Forall (in_series name) (sort_values_Date group).
Proof.
  intros Hall. unfold sort_values_Date.
  by rewrite (merge_sort_Permutation Date_le group).
Qed.

Lemma process_group_in_series name df e :
  e ∈ process_group (filter (in_series name) df) -> Series_Name (base e) = name.
Proof.
  intros He.
  assert (Hb : base e ∈ base <$> process_group (filter (in_series name) df))
    by (apply list_elem_of_fmap; eauto).
  rewrite process_group_base in Hb.
  assert (Hs : Forall (in_series name) (sort_values_Date (filter (in_series name) df))).
  { apply sort_values_Date_in_series, Forall_forall.
    intros r Hr. by apply list_elem_of_filter in Hr as [? _]. }
  rewrite Forall_forall in Hs. by apply Hs.
Qed.

(** The frame of one series is a contiguous block of the result. *)
Lemma calculate_changes_block df name :
  name ∈ Series_Name <$> df ->
  exists before after,
    calculate_changes df
    = Return (before ++ process_group (filter (in_series name) df) ++ after)
    /\ Forall (fun e => Series_Name (base e) <> name) (before ++ after).
Proof.
  intros Hin.
  assert (Hne : df <> []) by (intros ->; by apply elem_of_nil in Hin).
  destruct (concat_block (fun e => Series_Name (base e))
              (fun name => process_group (filter (in_series name) df))
              (group_keys df) name) as (before & after & Heq & Hout).
  - apply group_keys_NoDup.
  - by apply elem_of_group_keys.
  - intros k e. apply process_group_in_series.
  - exists before, after. split; [|done].
    by rewrite calculate_changes_nonempty, Heq.
Qed.

Lemma sort_values_Date_Sorted (group : list Observation) :
  Sorted Date_le (sort_values_Date group).
Proof. apply (@Sorted_merge_sort _ Date_le _ Date_le_total). Qed.

Lemma base_concat_frames (keys : list string) df :
  base <$> concat ((fun name => process_group (filter (in_series name) df)) <$> keys)
  ≡ₚ concat ((fun name => filter (in_series name) df) <$> keys).
Proof.
  induction keys as [|k keys IH]; [done|].
  simpl. rewrite fmap_app, IH, process_group_base.
  unfold sort_values_Date. by rewrite (merge_sort_Permutation Date_le).
Qed.

Lemma filter_in_series_block name (before block after : list (Enriched float64)) :
  Forall (fun e => Series_Name (base e) <> name) (before ++ after) ->
  Forall (fun e => Series_Name (base e) = name) block ->
  filter (in_series name) (base <$> (before ++ block ++ after)) = base <$> block.
Proof.
  intros [Hb Ha]%Forall_app Hblock.
  rewrite !fmap_app, !filter_app.
  rewrite (filter_none (in_series name) (base <$> before)),
          (filter_none (in_series name) (base <$> after)),
          (filter_all (in_series name) (base <$> block)).
  - by rewrite app_nil_r.
  - by apply Forall_fmap.
  - by apply Forall_fmap.
  - by apply Forall_fmap.
Qed.

End Changes.

(** ** Claims on the transformer *)

(** C1. For every series of the table passed to [calculate_changes], the
    rows of that series form one block of the result; the block is the
    partition sorted by date ascending; MoM Change is undefined at index 0
    of the block and is [value[i] - value[i-1]] at every later index, both
    values taken inside the block.  No row of the series lies outside the
    block, so another series starts again at its own index 0. *)
Theorem C1_mom_change_per_series `{Builtins} (df : list Observation) (name : string) :
  name ∈ Series_Name <$> df ->
  exists before block after,
    calculate_changes df = Return (before ++ block ++ after)
    /\ Forall (fun e => Series_Name (base e) <> name) (before ++ after)
    /\ base <$> block = sort_values_Date (filter (in_series name) df)
    /\ base <$> block ≡ₚ filter (in_series name) df
    /\ Sorted Date_le (base <$> block)
    /\ (exists first, block !! 0%nat = Some first /\ MoM_Change first = None)
    /\ (forall i prev cur,
          block !! i = Some prev -> block !! S i = Some cur ->
          MoM_Change cur = Some (fsub (Value (base cur)) (Value (base prev)))).
Proof.
  intros Hin.
  destruct (calculate_changes_block df name Hin) as (before & after & Hcalc & Hout).
  exists before, (process_group (filter (in_series name) df)), after.
  set (group := filter (in_series name) df) in *.
  pose proof (process_group_base group) as Hbase.
  repeat split; try done.
  - rewrite Hbase. apply (merge_sort_Permutation Date_le).
  - rewrite Hbase. apply sort_values_Date_Sorted.
  - assert (Hlen : (0 < length (sort_values_Date group))%nat).
    { unfold sort_values_Date.
      rewrite (Permutation_length (merge_sort_Permutation Date_le group)).
      apply list_elem_of_fmap in Hin as (r & -> & Hr).
      assert (Hg : r ∈ group) by (by apply list_elem_of_filter).
      destruct group; [by apply elem_of_nil in Hg | simpl; lia]. }
    apply lookup_lt_is_Some_2 in Hlen as [r Hr].
    eexists. split; [by apply process_group_lookup|]. done.
  - intros i prev cur Hprev Hcur.
    assert (Hp : sort_values_Date group !! i = Some (base prev))
      by (by rewrite <- Hbase, list_lookup_fmap, Hprev).
    assert (Hc : sort_values_Date group !! S i = Some (base cur))
      by (by rewrite <- Hbase, list_lookup_fmap, Hcur).
    rewrite (process_group_lookup _ _ _ Hc) in Hcur.
    injection Hcur as <-. simpl.
    replace (i - 0)%nat with i by lia. by rewrite Hp.
Qed.

Lemma C1_mom_change_per_series_witness :
  "Unemployment Rate" ∈ Series_Name <$> Samples.table
  /\ exists before block after,
    @calculate_changes Reference.builtins Samples.table = Return (before ++ block ++ after)
    /\ Forall (fun e => Series_Name (base e) <> "Unemployment Rate") (before ++ after)
    /\ base <$> block
       = sort_values_Date (filter (in_series "Unemployment Rate") Samples.table)
    /\ base <$> block ≡ₚ filter (in_series "Unemployment Rate") Samples.table
    /\ Sorted Date_le (base <$> block)
    /\ (exists first, block !! 0%nat = Some first /\ MoM_Change first = None)
    /\ (forall i prev cur,
          block !! i = Some prev -> block !! S i = Some cur ->
          MoM_Change cur
          = Some (@fsub Reference.builtins (Value (base cur)) (Value (base prev)))).
Proof.
  assert (Hin : "Unemployment Rate" ∈ Series_Name <$> Samples.table)
    by (simpl; apply list_elem_of_here).
  split; [exact Hin|].
  exact (@C1_mom_change_per_series Reference.builtins Samples.table "Unemployment Rate" Hin).
Defined.

(** C2. For every series of the table passed to [calculate_changes], the
    rows of that series form one block of the result, which holds exactly
    the rows of the partition, sorted by date ascending; inside the block
    YoY % Change is undefined at every index below 12, index 0 being there,
    and is [(value[i] / value[i-12] - 1) * 100] at every index from 12 on,
    the value twelve rows earlier being taken inside the block. *)
Theorem C2_yoy_pct_change_per_series `{Builtins} (df : list Observation) (name : string) :
  name ∈ Series_Name <$> df ->
  exists before block after,
    calculate_changes df = Return (before ++ block ++ after)
    /\ Forall (fun e => Series_Name (base e) <> name) (before ++ after)
    /\ base <$> block = sort_values_Date (filter (in_series name) df)
    /\ base <$> block ≡ₚ filter (in_series name) df
    /\ length block = length (filter (in_series name) df)
    /\ Sorted Date_le (base <$> block)
    /\ (exists first, block !! 0%nat = Some first /\ YoY_pct_Change first = None)
    /\ (forall i e, (i < 12)%nat -> block !! i = Some e -> YoY_pct_Change e = None)
    /\ (forall i prev cur,
          block !! i = Some prev -> block !! (i + 12)%nat = Some cur ->
          YoY_pct_Change cur
          = Some (fmul (fsub (fdiv (Value (base cur)) (Value (base prev))) f_1) f_100)).
Proof.
  intros Hin.
  destruct (calculate_changes_block df name Hin) as (before & after & Hcalc & Hout).
  exists before, (process_group (filter (in_series name) df)), after.
  set (group := filter (in_series name) df) in *.
  pose proof (process_group_base group) as Hbase.
  assert (Hperm : sort_values_Date group ≡ₚ group)
    by apply (merge_sort_Permutation Date_le).
  repeat split; try done.
  - by rewrite Hbase.
  - by rewrite <- (length_fmap base), Hbase, Hperm.
  - rewrite Hbase. apply sort_values_Date_Sorted.
  - assert (Hlen : (0 < length (sort_values_Date group))%nat).
    { rewrite Hperm.
      apply list_elem_of_fmap in Hin as (r & -> & Hr).
      assert (Hg : r ∈ group) by (by apply list_elem_of_filter).
      destruct group; [by apply elem_of_nil in Hg | simpl; lia]. }
    apply lookup_lt_is_Some_2 in Hlen as [r Hr].
    eexists. split; [by apply process_group_lookup|]. done.
  - intros i e Hi He.
    assert (Hr : sort_values_Date group !! i = Some (base e))
      by (by rewrite <- Hbase, list_lookup_fmap, He).
    rewrite (process_group_lookup _ _ _ Hr) in He.
    injection He as <-. simpl. by rewrite decide_True.
  - intros i prev cur Hprev Hcur.
    assert (Hp : sort_values_Date group !! i = Some (base prev))
      by (by rewrite <- Hbase, list_lookup_fmap, Hprev).
    assert (Hc : sort_values_Date group !! (i + 12)%nat = Some (base cur))
      by (by rewrite <- Hbase, list_lookup_fmap, Hcur).
    rewrite (process_group_lookup _ _ _ Hc) in Hcur.
    injection Hcur as <-. simpl.
    rewrite decide_False by lia.
    replace (i + 12 - 12)%nat with i by lia. by rewrite Hp.
Qed.

Lemma C2_yoy_pct_change_per_series_witness :
  "Unemployment Rate" ∈ Series_Name <$> Samples.table
  /\ exists before block after,
    @calculate_changes Reference.builtins Samples.table = Return (before ++ block ++ after)
    /\ Forall (fun e => Series_Name (base e) <> "Unemployment Rate") (before ++ after)
    /\ base <$> block
       = sort_values_Date (filter (in_series "Unemployment Rate") Samples.table)
    /\ base <$> block ≡ₚ filter (in_series "Unemployment Rate") Samples.table
    /\ length block = length (filter (in_series "Unemployment Rate") Samples.table)
    /\ Sorted Date_le (base <$> block)
    /\ (exists first, block !! 0%nat = Some first /\ YoY_pct_Change first = None)
    /\ (forall i e, (i < 12)%nat -> block !! i = Some e -> YoY_pct_Change e = None)
    /\ (forall i prev cur,
          block !! i = Some prev -> block !! (i + 12)%nat = Some cur ->
          YoY_pct_Change cur
          = Some (@fmul Reference.builtins
                    (@fsub Reference.builtins
                       (@fdiv Reference.builtins (Value (base cur)) (Value (base prev)))
                       (@f_1 Reference.builtins))
                    (@f_100 Reference.builtins))).
Proof.
  assert (Hin : "Unemployment Rate" ∈ Series_Name <$> Samples.table)
    by (simpl; apply list_elem_of_here).
  split; [exact Hin|].
  exact (@C2_yoy_pct_change_per_series Reference.builtins Samples.table
           "Unemployment Rate" Hin).
Defined.

(** Values 3.5, 3.6, 3.4 of consecutive months: the changes are undefined,
    0.1, -0.2 and the percent changes undefined, 2.857..., -5.555.... *)
Example calculate_changes_three_months :
  match @calculate_changes Reference.builtins Samples.three_months with
  | Return out => Some (MoM_Change <$> out, MoM_pct_Change <$> out)
  | Raise _ => None
  end
  = Some ([None; Some (1 # 10)%Q; Some (-1 # 5)%Q],
          [None; Some (20 # 7)%Q; Some (-50 # 9)%Q]).
Proof. reflexivity. Qed.

(** C7, as stated, fails on the empty table: no group is produced and
    [pd.concat] raises on the empty list of frames, so there is no result
    whose row count could equal that of the input. *)
Lemma C7_counterexample_empty_table :
  @calculate_changes Reference.builtins [] = Raise (ValueError "No objects to concatenate")
  /\ ~ exists out, @calculate_changes Reference.builtins [] = Return out
                   /\ length out = length (@nil (Row Timestamp Q)).
Proof.
  split; [reflexivity|].
  intros (out & Hout & _). discriminate Hout.
Qed.

(** C7, amended. For every non-empty input table [calculate_changes] returns
    a table with the same number of rows; its rows without the three new
    columns are a rearrangement of the input rows, hence so are the
    (Series Name, Date) identities; and the rows of each series appear in
    the result as the date-ascending sort of that series' input rows. *)
Theorem C7_rows_preserved `{Builtins} (df : list Observation) :
  df <> [] ->
  exists out,
    calculate_changes df = Return out
    /\ length out = length df
    /\ base <$> out ≡ₚ df
    /\ (fun e => (Series_Name (base e), Date (base e))) <$> out
       ≡ₚ (fun r => (Series_Name r, Date r)) <$> df
    /\ (forall name,
          filter (in_series name) (base <$> out)
          = sort_values_Date (filter (in_series name) df))
    /\ (forall name, Sorted Date_le (filter (in_series name) (base <$> out))).
Proof.
  intros Hne. eexists. split; [by apply calculate_changes_nonempty|].
  set (out := concat _).
  assert (Hperm : base <$> out ≡ₚ df).
  { unfold out. rewrite base_concat_frames. apply groups_cover. }
  assert (Hsel : forall name,
             filter (in_series name) (base <$> out)
             = sort_values_Date (filter (in_series name) df)).
  { intros name. destruct (decide (name ∈ Series_Name <$> df)) as [Hin|Hnot].
    - destruct (calculate_changes_block df name Hin) as (before & after & Hcalc & Hout).
      rewrite calculate_changes_nonempty in Hcalc by done.
      injection Hcalc as Hcalc. fold out in Hcalc. rewrite Hcalc.
      rewrite filter_in_series_block; [apply process_group_base|done|].
      apply Forall_forall. intros e. apply process_group_in_series.
    - assert (Hnone : Forall (fun r => ~ in_series name r) df).
      { apply Forall_forall. intros r Hr Hn. apply Hnot.
        apply list_elem_of_fmap. exists r. by rewrite Hn. }
      rewrite (filter_none _ df Hnone).
      apply filter_none. by rewrite Hperm. }
  repeat split.
  - by rewrite <- (length_fmap base), Hperm.
  - exact Hperm.
  - by rewrite <- Hperm, <- list_fmap_compose.
  - exact Hsel.
  - intros name. rewrite Hsel. apply sort_values_Date_Sorted.
Qed.

Lemma C7_rows_preserved_witness :
  Samples.table <> []
  /\ exists out,
    @calculate_changes Reference.builtins Samples.table = Return out
    /\ length out = length Samples.table
    /\ base <$> out ≡ₚ Samples.table
    /\ (fun e => (Series_Name (base e), Date (base e))) <$> out
       ≡ₚ (fun r => (Series_Name r, Date r)) <$> Samples.table
    /\ (forall name,
          filter (in_series name) (base <$> out)
          = sort_values_Date (filter (in_series name) Samples.table))
    /\ (forall name, Sorted Date_le (filter (in_series name) (base <$> out))).
Proof.
  assert (Hne : Samples.table <> []) by (unfold Samples.table; discriminate).
  split; [exact Hne|].
  exact (@C7_rows_preserved Reference.builtins Samples.table Hne).
Defined.

(** ** Claims on get_latest_metrics *)

(** C5, as stated, fails on the frame without columns, which is what
    [fetch_data] returns when it has no row: the frame has zero rows for
    every series name, and selecting the column raises [KeyError]. *)
Lemma C5_counterexample_frame_without_columns :
  Samples.fetch PostRaised = Return []
  /\ get_latest_metrics (frame_of (@nil (Enriched Q))) "Unemployment Rate"
     = Raise (KeyError "Series Name")
  /\ get_latest_metrics (frame_of (@nil (Enriched Q))) "Unemployment Rate" <> Return None.
Proof. repeat split; [reflexivity..|discriminate]. Qed.

(** C5, amended. On every table that has its columns, with or without rows,
    [get_latest_metrics] returns [None], and raises nothing, exactly when
    the table has no row of the series; otherwise it returns the Date, the
    Value, the MoM Change, the MoM % Change and the YoY % Change of the row
    stored last among the rows of that series.  The last stored row need
    not have the greatest date. *)
Theorem C5_latest_is_last_stored_row {F} (rows : list (Enriched F)) (series_name : string)
    (v : F) :
  get_latest_metrics (Frame rows) series_name
  = Return ((fun latest =>
               mkMetrics _ (Date (base latest)) (Value (base latest))
                 (MoM_Change latest) (MoM_pct_Change latest) (YoY_pct_Change latest))
            <$> last (filter (fun e => in_series series_name (base e)) rows))
  /\ (get_latest_metrics (Frame rows) series_name = Return None
      <-> filter (fun e => in_series series_name (base e)) rows = [])
  /\ (exists m later,
        get_latest_metrics (Frame (Samples.unsorted_enriched v)) "Unemployment Rate"
        = Return (Some m)
        /\ later ∈ Samples.unsorted_enriched v
        /\ in_series "Unemployment Rate" (base later)
        /\ ts_leb (Date (base later)) (date m) = false).
Proof.
  unfold get_latest_metrics.
  set (series_data := filter _ rows).
  split; [|split].
  - destruct series_data as [|first rest] eqn:Hs; [done|].
    destruct (exists_last (l := first :: rest)) as (l & x & Hl); [done|].
    rewrite Hl, last_snoc, last_last. done.
  - destruct series_data; split; done.
  - exists (mkMetrics _ (mkTimestamp 2024 1 1) v None None None),
           (mkEnriched _ (Samples.row "Unemployment Rate" 2024 2 v) None None None).
    repeat split; [apply list_elem_of_here].
Qed.

(** ** The fetch boundary *)

Section Boundary.
Context `{Builtins}.

Lemma for_each_raise {A B} (body : A -> result (list B)) (l : list A) x e :
  x ∈ l -> body x = Raise e -> exists e', for_each body l = Raise e'.
Proof.
  intros Hx Hraise. induction l as [|y l IH]; [by apply elem_of_nil in Hx|].
  apply elem_of_cons in Hx as [<-|Hx]; simpl.
  - rewrite Hraise. by eexists.
  - destruct (body y) as [rows|e1]; simpl; [|by eexists].
    destruct (IH Hx) as [e' ->]. by eexists.
Qed.

(** Whatever happens inside, [fetch_data] hands a table to its caller. *)
Lemma fetch_data_returns now_year post start_year end_year :
  exists df, fetch_data now_year post start_year end_year = Return df.
Proof.
  unfold fetch_data, try_except.
  match goal with |- context [match ?b with _ => _ end] => destruct b end; by eexists.
Qed.

(** Past the transport and the status check, the result is that of
    [_process_data], an exception of which becomes the empty table. *)
Lemma fetch_data_parsed now_year post start_year end_year status_code json_data st :
  post (build_payload now_year start_year end_year) = Response status_code (Some json_data) ->
  ~ (400 <= status_code < 600) ->
  status json_data = Some st ->
  st = "REQUEST_SUCCEEDED" \/ is_Some (message json_data) ->
  fetch_data now_year post start_year end_year
  = try_except (_process_data json_data) (fun _ => Return []).
Proof.
  intros Hpost Hcode Hst Hmsg. unfold fetch_data, request, raise_for_status.
  rewrite Hpost.
  replace ((400 <=? status_code) && (status_code <? 600)) with false
    by (symmetry; apply andb_false_iff; lia).
  simpl. rewrite Hst. simpl.
  destruct Hmsg as [->|[m Hm]]; [done|].
  destruct (String.eqb st "REQUEST_SUCCEEDED"); [done|].
  by rewrite Hm.
Qed.

Lemma process_series_raise (s : Series) :
  seriesID s = None \/ data s = None
  \/ (exists items it, data s = Some items /\ it ∈ items
      /\ (item_year it = None \/ item_period it = None \/ item_value it = None)) ->
  exists e, process_series s = Raise e.
Proof.
  unfold process_series.
  destruct (seriesID s) as [series_id|]; simpl; [|by eexists].
  destruct (data s) as [items|]; simpl; [|by eexists].
  intros [?|[?|(items' & it & [= <-] & Hit & Hkey)]]; [done..|].
  assert (Hraise : exists e, process_item series_id
                       (series_map_get series_id series_id) it = Raise e).
  { unfold process_item.
    destruct (item_year it); simpl; [|by eexists].
    destruct (item_period it); simpl; [|by eexists].
    destruct (item_value it); simpl; [|by eexists].
    by destruct Hkey as [?|[?|?]]. }
  destruct Hraise as [e He]. by eapply for_each_raise.
Qed.

End Boundary.

(** ** Claims on the fetcher *)

(** C4, as stated, fails for a status outside 2xx that [raise_for_status]
    lets through: an answer with status 300 and a well-formed body is
    parsed like a successful one. *)
Lemma C4_counterexample_status_300 :
  ~ (200 <= 300 < 300)
  /\ Samples.fetch (Response 300 (Some Samples.one_observation)) = Return Samples.one_row
  /\ Samples.fetch (Response 300 (Some Samples.one_observation)) <> Return [].
Proof.
  split; [lia|]. split; [reflexivity|].
  vm_compute. discriminate.
Qed.

(** A body with a status other than success and no [Results] gives the
    empty table. *)
Example fetch_without_Results :
  Samples.fetch (Response 200 (Some Samples.without_Results)) = Return [].
Proof. reflexivity. Qed.

(** C4, amended. If the request raises, the status is a 4xx or 5xx one, the
    body is not well-formed JSON, or the body has no [Results] or no
    [Results.series], then [fetch_data] returns the empty table; it returns
    and does not raise. *)
Theorem C4_failure_gives_empty_table `{Builtins} (now_year : Z)
    (post : Payload -> http_result) (start_year end_year : option string) :
  (post (build_payload now_year start_year end_year) = PostRaised
   \/ exists status_code body,
        post (build_payload now_year start_year end_year) = Response status_code body
        /\ (400 <= status_code < 600
            \/ body = None
            \/ exists json_data,
                 body = Some json_data
                 /\ (Results json_data = None
                     \/ exists results,
                          Results json_data = Some results /\ series results = None))) ->
  fetch_data now_year post start_year end_year = Return [].
Proof.
  intros Hfail. unfold fetch_data, request, raise_for_status.
  destruct Hfail as [->|(status_code & body & -> & Hfail)]; [done|].
  destruct ((400 <=? status_code) && (status_code <? 600)) eqn:Hcode; [done|].
  destruct Hfail as [Hrange|[->|(json_data & -> & Hshape)]]; [|done|].
  - apply andb_false_iff in Hcode. lia.
  - simpl. destruct (status json_data) as [st|]; simpl; [|done].
    assert (Hempty : _process_data json_data = Return []).
    { unfold _process_data.
      destruct Hshape as [->|(results & -> & ->)]; done. }
    destruct (String.eqb st "REQUEST_SUCCEEDED"); simpl.
    + by rewrite Hempty.
    + destruct (message json_data); simpl; [|done]. by rewrite Hempty.
Qed.

Lemma C4_failure_gives_empty_table_witness :
  (let post := fun _ : Payload => Response 503 (Some Samples.one_observation) in
   post (build_payload 2026 None None) = PostRaised
   \/ exists status_code body,
        post (build_payload 2026 None None) = Response status_code body
        /\ (400 <= status_code < 600
            \/ body = None
            \/ exists json_data,
                 body = Some json_data
                 /\ (Results json_data = None
                     \/ exists results,
                          Results json_data = Some results /\ series results = None)))
  /\ Samples.fetch (Response 503 (Some Samples.one_observation)) = Return [].
Proof.
  assert (Hfail :
    let post := fun _ : Payload => Response 503 (Some Samples.one_observation) in
    post (build_payload 2026 None None) = PostRaised
    \/ exists status_code body,
         post (build_payload 2026 None None) = Response status_code body
         /\ (400 <= status_code < 600
             \/ body = None
             \/ exists json_data,
                  body = Some json_data
                  /\ (Results json_data = None
                      \/ exists results,
                           Results json_data = Some results /\ series results = None))).
  { right. exists 503, (Some Samples.one_observation). split; [reflexivity|]. left. lia. }
  split; [exact Hfail|].
  exact (@C4_failure_gives_empty_table Reference.builtins 2026
           (fun _ => Response 503 (Some Samples.one_observation)) None None Hfail).
Defined.

(** C10. If some series object of the response lacks [seriesID] or [data],
    or some data item lacks [year], [period] or [value], then [fetch_data]
    returns the empty table for the whole batch, whatever else the response
    holds: the [KeyError] leaves [_process_data] and is caught in
    [fetch_data]. *)
Theorem C10_missing_key_discards_batch `{Builtins} (now_year : Z)
    (post : Payload -> http_result) (start_year end_year : option string)
    (status_code : Z) (json_data : Json) (results : ResultsObj)
    (series_list : list Series) (bad : Series) :
  post (build_payload now_year start_year end_year) = Response status_code (Some json_data) ->
  Results json_data = Some results ->
  series results = Some series_list ->
  bad ∈ series_list ->
  (seriesID bad = None \/ data bad = None
   \/ exists items it, data bad = Some items /\ it ∈ items
        /\ (item_year it = None \/ item_period it = None \/ item_value it = None)) ->
  fetch_data now_year post start_year end_year = Return []
  /\ exists e, _process_data json_data = Raise e.
Proof.
  intros Hpost Hres Hser Hbad Hkey.
  destruct (process_series_raise bad Hkey) as [e He].
  destruct (for_each_raise process_series series_list bad e Hbad He) as [e' He'].
  assert (Hraise : _process_data json_data = Raise e').
  { unfold _process_data. by rewrite Hres, Hser, He'. }
  split; [|by eexists].
  unfold fetch_data, request, raise_for_status. rewrite Hpost.
  destruct ((400 <=? status_code) && (status_code <? 600)); [done|].
  simpl. destruct (status json_data) as [st|]; simpl; [|done].
  destruct (String.eqb st "REQUEST_SUCCEEDED"); simpl.
  - by rewrite Hraise.
  - destruct (message json_data); simpl; [|done]. by rewrite Hraise.
Qed.

Lemma C10_missing_key_discards_batch_witness :
  Samples.fetch (Response 200 (Some Samples.item_without_value)) = Return []
  /\ exists e, @_process_data Reference.builtins Samples.item_without_value = Raise e.
Proof.
  apply (@C10_missing_key_discards_batch Reference.builtins 2026
           (fun _ => Response 200 (Some Samples.item_without_value)) None None
           200 Samples.item_without_value
           (mkResults (Some [Samples.unemployment
              [Samples.item "2024" "M01" "3.7"; mkItem (Some "2024") (Some "M02") None]]))
           [Samples.unemployment
              [Samples.item "2024" "M01" "3.7"; mkItem (Some "2024") (Some "M02") None]]
           (Samples.unemployment
              [Samples.item "2024" "M01" "3.7"; mkItem (Some "2024") (Some "M02") None])).
  - reflexivity.
  - reflexivity.
  - reflexivity.
  - apply list_elem_of_here.
  - right. right.
    exists [Samples.item "2024" "M01" "3.7"; mkItem (Some "2024") (Some "M02") None],
           (mkItem (Some "2024") (Some "M02") None).
    split; [reflexivity|]. split; [|right; right; reflexivity].
    apply list_elem_of_further, list_elem_of_here.
Defined.

(** C8: the code at a response with a status other than success, no
    [message] key and one observation.  Building the log line evaluates
    [json_data['message']]; the [KeyError] is caught and the table is
    empty, although [_process_data] parses the observation.  With the key
    present the observation is returned. *)
Theorem C8_soft_error_without_message :
  Samples.fetch (Response 200 (Some Samples.soft_error_without_message)) = Return []
  /\ @_process_data Reference.builtins Samples.soft_error_without_message
     = Return Samples.one_row
  /\ Samples.fetch (Response 200 (Some Samples.soft_error_with_message))
     = Return Samples.one_row.
Proof. repeat split; reflexivity. Qed.


Section Rows.
Context `{Builtins}.


Lemma sort_values_Series_Name_Date_Permutation (df : list Observation) :
  sort_values_Series_Name_Date df ≡ₚ df.
Proof. apply (merge_sort_Permutation name_date_le). Qed.

(** A table that [fetch_data] returns is empty or comes from
    [_process_data] on a body that was received. *)
Lemma fetch_data_cases now_year post start_year end_year df :
  fetch_data now_year post start_year end_year = Return df ->
  df = []
  \/ exists status_code json_data,
       post (build_payload now_year start_year end_year)
       = Response status_code (Some json_data)
       /\ _process_data json_data = Return df.
Proof.
  unfold fetch_data, request, raise_for_status.
  destruct (post _) as [|status_code [json_data|]] eqn:Hpost;
    [intros [= <-]; by left| |destruct (_ && _); intros [= <-]; by left].
  destruct ((400 <=? status_code) && (status_code <? 600)); [intros [= <-]; by left|].
  simpl. destruct (status json_data) as [st|]; simpl; [|intros [= <-]; by left].
  assert (Hparsed : try_except (_process_data json_data) (fun _ => Return []) = Return df ->
            df = [] \/ _process_data json_data = Return df).
  { destruct (_process_data json_data); simpl; [by right|intros [= <-]; by left]. }
  destruct (String.eqb st "REQUEST_SUCCEEDED"); simpl.
  - intros Hdf. destruct (Hparsed Hdf); [by left|right; eauto].
  - destruct (message json_data); simpl; [|intros [= <-]; by left].
    intros Hdf. destruct (Hparsed Hdf); [by left|right; eauto].
Qed.

(** A table that [_process_data] returns is empty or the sorted list of
    the appended rows with their dates converted. *)
Lemma _process_data_cases json_data df :
  _process_data json_data = Return df ->
  df = []
  \/ exists results series_list all_data dated,
       Results json_data = Some results
       /\ series results = Some series_list
       /\ for_each process_series series_list = Return all_data
       /\ for_each convert_Date all_data = Return dated
       /\ df = sort_values_Series_Name_Date dated.
Proof.
  unfold _process_data.
  destruct (Results json_data) as [results|] eqn:Hres; [|intros [= <-]; by left].
  destruct (series results) as [series_list|] eqn:Hser; [|intros [= <-]; by left].
  destruct (for_each process_series series_list) as [all_data|] eqn:Hall;
    simpl; [|done].
  destruct all_data as [|r all_data]; [intros [= <-]; by left|].
  destruct (for_each convert_Date (r :: all_data)) as [dated|] eqn:Hdated;
    simpl; [|done].
  intros [= <-]. right.
  by exists results, series_list, (r :: all_data), dated.
Qed.

End Rows.



(** ** Period codes and unparsable values *)

Section Items.
Context `{Builtins}.

(** A period outside the string interval from "M01" to "M12" appends
    nothing. *)
Lemma process_item_outside_interval series_id series_name year period value :
  String.leb "M01" period && String.leb period "M12" = false ->
  process_item series_id series_name (mkItem (Some year) (Some period) (Some value))
  = Return [].
Proof. intros Hout. unfold process_item. simpl. by rewrite Hout. Qed.

(** An unparsable value appends nothing, provided the month of the period
    can be read when the period lies in the interval. *)
Lemma process_item_unparsable_value series_id series_name year period value :
  py_float value = None ->
  (String.leb "M01" period && String.leb period "M12" = true ->
   is_Some (py_int (tail_from_1 period))) ->
  process_item series_id series_name (mkItem (Some year) (Some period) (Some value))
  = Return [].
Proof.
  intros Hvalue Hmonth. unfold process_item. simpl.
  destruct (String.leb "M01" period && String.leb period "M12"); [|done].
  destruct Hmonth as [month Hm]; [done|].
  unfold int. rewrite Hm. simpl. by rewrite Hvalue.
Qed.

(** An iteration that appends nothing can be left out of the loop. *)
Lemma for_each_skip {A B} (body : A -> result (list B)) (l1 l2 : list A) x :
  body x = Return [] -> for_each body (l1 ++ x :: l2) = for_each body (l1 ++ l2).
Proof.
  intros Hx. induction l1 as [|y l1 IH]; simpl.
  - rewrite Hx. simpl. by destruct (for_each body l2).
  - by rewrite IH.
Qed.

End Items.

(** Each monthly code "M01" to "M12" yields a row whose month is the number
    in the code and whose date is the first day of that month. *)
Lemma monthly_codes_accepted :
  Forall (fun month =>
            Samples.fetch (Response 200 (Some (Samples.body "REQUEST_SUCCEEDED" (Some [])
              [Samples.unemployment [Samples.item "2024" ("M" +:+ fmt_02d month) "3.7"]])))
            = Return [mkRow "LNS14000000" "Unemployment Rate"
                        (mkTimestamp 2024 month 1) 3.7%Q 2024 month])
         [1; 2; 3; 4; 5; 6; 7; 8; 9; 10; 11; 12].
Proof. repeat constructor. Qed.

(** C3: the code at a period code that is not one of "M01" to "M12" but
    lies between them as a string.  "M011" passes the filter
    ['M01' <= period <= 'M12'] and its observation appears in the table, as
    a November row; "M13" is excluded. *)
Theorem C3_period_M011_accepted :
  ("M011" ∉ (fun month => "M" +:+ fmt_02d month) <$> [1; 2; 3; 4; 5; 6; 7; 8; 9; 10; 11; 12])
  /\ String.leb "M01" "M011" && String.leb "M011" "M12" = true
  /\ Samples.fetch (Response 200 (Some Samples.period_M011))
     = Return [mkRow "LNS14000000" "Unemployment Rate" (mkTimestamp 2024 11 1) 3.7%Q 2024 11]
  /\ Samples.fetch (Response 200 (Some Samples.period_M13)) = Return Samples.one_row.
Proof.
  split; [|repeat split; reflexivity].
  intros Hin. vm_compute in Hin.
  repeat (apply elem_of_cons in Hin as [Hin|Hin]; [discriminate Hin|]).
  by apply elem_of_nil in Hin.
Qed.

(** C6: the code at an observation with the unparsable value "N/A" whose
    period is "M0A".  The period passes the string filter, [int("0A")]
    raises [ValueError] outside the [try] that guards [float(value)], and
    the whole table is lost, the good observation of the same series
    included.  With a monthly period the observation is dropped alone. *)
Theorem C6_value_NA_period_M0A_discards_batch :
  Reference.parse_float "N/A" = None
  /\ Samples.fetch (Response 200 (Some Samples.value_NA_period_M0A)) = Return []
  /\ Samples.fetch (Response 200 (Some Samples.one_observation)) = Return Samples.one_row
  /\ Samples.fetch (Response 200 (Some Samples.value_NA)) = Return Samples.one_row.
Proof. repeat split; reflexivity. Qed.

(** * Further properties *)

(** ** Transitivity of the orders *)

Lemma ascii_compare_Lt_trans (a b c : ascii) :
  Ascii.compare a b = Lt -> Ascii.compare b c = Lt -> Ascii.compare a c = Lt.
Proof.
  unfold Ascii.compare. rewrite !N.compare_lt_iff. apply N.lt_trans.
Qed.

Lemma string_compare_Lt_trans (s1 s2 s3 : string) :
  String.compare s1 s2 = Lt -> String.compare s2 s3 = Lt -> String.compare s1 s3 = Lt.
Proof.
  revert s2 s3. induction s1 as [|c1 s1 IH]; intros [|c2 s2] [|c3 s3]; simpl; try done.
  destruct (Ascii.compare c1 c2) eqn:H12; try done;
    destruct (Ascii.compare c2 c3) eqn:H23; try done; intros Ha Hb.
  - apply Ascii.compare_eq_iff in H12, H23. subst.
    assert (Hrefl : Ascii.compare c3 c3 = Eq) by apply N.compare_refl.
    rewrite Hrefl. by eapply IH.
  - apply Ascii.compare_eq_iff in H12. subst. by rewrite H23.
  - apply Ascii.compare_eq_iff in H23. subst. by rewrite H12.
  - by rewrite (ascii_compare_Lt_trans _ _ _ H12 H23).
Qed.

Lemma string_compare_refl (s : string) : String.compare s s = Eq.
Proof.
  induction s as [|c s IH]; [done|]. simpl.
  assert (Hrefl : Ascii.compare c c = Eq) by apply N.compare_refl.
  by rewrite Hrefl.
Qed.

Lemma string_le_cases (a b : string) :
  string_le a b <-> String.compare a b = Lt \/ a = b.
Proof.
  unfold string_le, String.leb. split.
  - destruct (String.compare a b) eqn:Hc; [|by left|done].
    right. by apply String.compare_eq_iff.
  - intros [->| ->]; [done|]. by rewrite string_compare_refl.
Qed.

Lemma string_le_trans : Transitive string_le.
Proof.
  intros a b c [Hab| ->]%string_le_cases [Hbc| ->]%string_le_cases;
    apply string_le_cases; eauto using string_compare_Lt_trans.
Qed.

Lemma string_le_antisym : AntiSymm eq string_le.
Proof. intros a b Hab Hba. by apply String.leb_antisym. Qed.

Lemma ts_le_trans : Transitive ts_le.
Proof.
  intros a b c. unfold ts_le, ts_leb.
  repeat match goal with
         | |- context [if ?c then _ else _] => destruct c eqn:?
         end; try done; lia.
Qed.

Lemma ts_le_antisym (a b : Timestamp) : ts_le a b -> ts_le b a -> a = b.
Proof.
  destruct a as [ya ma da], b as [yb mb db]. unfold ts_le, ts_leb. simpl.
  repeat match goal with
         | |- context [if ?c then _ else _] => destruct c eqn:?
         end; try done; intros; f_equal; lia.
Qed.

Lemma Date_le_trans {F} : Transitive (@Date_le F).
Proof. intros a b c. apply ts_le_trans. Qed.

(** The order of the fetcher's sort, spelled out. *)
Lemma name_date_le_cases {F} (a b : Row Timestamp F) :
  name_date_le a b
  <-> String.compare (Series_Name a) (Series_Name b) = Lt
      \/ (Series_Name a = Series_Name b /\ ts_le (Date a) (Date b)).
Proof.
  unfold name_date_le, name_date_leb. split.
  - destruct (String.compare _ _) eqn:Hc; [|by left|done].
    apply String.compare_eq_iff in Hc. by right.
  - intros [->|[-> Hd]]; [done|]. by rewrite string_compare_refl.
Qed.

Lemma name_date_le_trans {F} : Transitive (@name_date_le F).
Proof.
  intros a b c Hab Hbc. apply name_date_le_cases.
  apply name_date_le_cases in Hab as [Hab|[Hab Hdab]];
    apply name_date_le_cases in Hbc as [Hbc|[Hbc Hdbc]].
  - left. by eapply string_compare_Lt_trans.
  - left. by rewrite <- Hbc.
  - left. by rewrite Hab.
  - right. split; [congruence|]. by eapply ts_le_trans.
Qed.

(** ** What the parse loop appends *)

Section Loop.
Context `{Builtins}.

Lemma for_each_Return_inv {A B} (body : A -> result (list B)) x l out :
  for_each body (x :: l) = Return out ->
  exists rows rest, body x = Return rows /\ for_each body l = Return rest
                    /\ out = rows ++ rest.
Proof.
  simpl. unfold mbind, result_bind.
  destruct (body x) as [rows|]; [|done].
  destruct (for_each body l) as [rest|]; [|done].
  intros [= <-]. by exists rows, rest.
Qed.

(** Every appended row comes from one iteration. *)
Lemma for_each_elem_of {A B} (body : A -> result (list B)) l out y :
  for_each body l = Return out -> y ∈ out ->
  exists x rows, x ∈ l /\ body x = Return rows /\ y ∈ rows.
Proof.
  revert out. induction l as [|x l IH]; intros out Hout Hy.
  - injection Hout as <-. by apply elem_of_nil in Hy.
  - apply for_each_Return_inv in Hout as (rows & rest & Hx & Hrest & ->).
    apply elem_of_app in Hy as [Hy|Hy].
    + exists x, rows. split; [left|done].
    + destruct (IH rest Hrest Hy) as (x' & rows' & Hin & Hb & Hy').
      exists x', rows'. split; [by right|done].
Qed.

(** When the loop completes, the rows of each iteration are kept. *)
Lemma for_each_kept {A B} (body : A -> result (list B)) l out x :
  for_each body l = Return out -> x ∈ l ->
  exists rows, body x = Return rows /\ forall y, y ∈ rows -> y ∈ out.
Proof.
  revert out. induction l as [|x' l IH]; intros out Hout Hx.
  - by apply elem_of_nil in Hx.
  - apply for_each_Return_inv in Hout as (rows & rest & Hb & Hrest & ->).
    apply elem_of_cons in Hx as [->|Hx].
    + exists rows. split; [done|]. intros y Hy. apply elem_of_app. by left.
    + destruct (IH rest Hrest Hx) as (rows' & Hb' & Hsub).
      exists rows'. split; [done|]. intros y Hy. apply elem_of_app. right. by apply Hsub.
Qed.

(** A row appended for an item carries the readings of that item. *)
Lemma process_item_row series_id series_name (item : Item) rows (r : RawRow) :
  process_item series_id series_name item = Return rows -> r ∈ rows ->
  exists year period value,
    item_year item = Some year /\ item_period item = Some period
    /\ item_value item = Some value
    /\ String.leb "M01" period && String.leb period "M12" = true
    /\ py_int (tail_from_1 period) = Some (Month r)
    /\ py_float value = Some (Value r)
    /\ py_int year = Some (Year r)
    /\ Date r = year +:+ "-" +:+ fmt_02d (Month r) +:+ "-01"
    /\ Series_ID r = series_id /\ Series_Name r = series_name.
Proof.
  unfold process_item, getitem, int, mbind, result_bind.
  destruct (item_year item) as [year|]; [|done].
  destruct (item_period item) as [period|]; [|done].
  destruct (item_value item) as [value|]; [|done].
  destruct (String.leb "M01" period && String.leb period "M12") eqn:Hin;
    [|intros [= <-] Hr; by apply elem_of_nil in Hr].
  destruct (py_int (tail_from_1 period)) as [month|] eqn:Hmonth; [|done].
  destruct (py_float value) as [float_value|] eqn:Hvalue;
    [|intros [= <-] Hr; by apply elem_of_nil in Hr].
  destruct (py_int year) as [year_int|] eqn:Hyear; [|done].
  intros [= <-] Hr. apply list_elem_of_singleton in Hr as ->.
  by exists year, period, value.
Qed.

(** An item of a monthly-interval period and parsable value appends its row,
    if the item is processed without an exception. *)
Lemma process_item_retained series_id series_name year period value v rows :
  process_item series_id series_name (mkItem (Some year) (Some period) (Some value))
  = Return rows ->
  String.leb "M01" period && String.leb period "M12" = true ->
  py_float value = Some v ->
  exists month year_int,
    py_int (tail_from_1 period) = Some month /\ py_int year = Some year_int
    /\ rows = [mkRow series_id series_name
                 (year +:+ "-" +:+ fmt_02d month +:+ "-01") v year_int month].
Proof.
  unfold process_item, getitem, int, mbind, result_bind. simpl.
  intros Hrows Hin Hv. rewrite Hin, Hv in Hrows.
  destruct (py_int (tail_from_1 period)) as [month|]; [|done].
  destruct (py_int year) as [year_int|]; [|done].
  injection Hrows as <-. by exists month, year_int.
Qed.

Lemma process_series_row (s : Series) rows (r : RawRow) :
  process_series s = Return rows -> r ∈ rows ->
  exists series_id items item item_rows,
    seriesID s = Some series_id /\ data s = Some items /\ item ∈ items
    /\ process_item series_id (series_map_get series_id series_id) item = Return item_rows
    /\ r ∈ item_rows.
Proof.
  unfold process_series, getitem, mbind, result_bind.
  destruct (seriesID s) as [series_id|]; [|done].
  destruct (data s) as [items|]; [|done].
  intros Hrows Hr.
  destruct (for_each_elem_of _ _ _ _ Hrows Hr) as (item & item_rows & Hin & Hb & Hr').
  by exists series_id, items, item, item_rows.
Qed.

Lemma convert_Date_row (raw : RawRow) rows (r : Observation) :
  convert_Date raw = Return rows -> r ∈ rows ->
  to_datetime (Date raw) = Some (Date r) /\ r = with_Date raw (Date r).
Proof.
  unfold convert_Date. destruct (to_datetime (Date raw)) as [d|]; [|done].
  intros [= <-] Hr. by apply list_elem_of_singleton in Hr as ->.
Qed.

End Loop.

(** ** The table of the fetcher *)

Lemma StronglySorted_impl {A} (R1 R2 : relation A) (l : list A) :
  (forall x y, R1 x y -> R2 x y) -> StronglySorted R1 l -> StronglySorted R2 l.
Proof.
  intros Himpl. induction 1 as [|x l _ IH Hx]; constructor; [done|].
  eapply Forall_impl; [exact Hx|]. intros y. apply Himpl.
Qed.

(** X1. [fetch_data] always returns a table, and the table is ordered: of
    two rows the earlier one has the smaller series name or, for the same
    name, a date that is not later. *)
Theorem fetch_data_returns_sorted_table `{Builtins} (now_year : Z)
    (post : Payload -> http_result) (start_year end_year : option string) :
  exists df,
    fetch_data now_year post start_year end_year = Return df
    /\ StronglySorted
         (fun a b => String.compare (Series_Name a) (Series_Name b) = Lt
                     \/ (Series_Name a = Series_Name b /\ ts_le (Date a) (Date b)))
         df.
Proof.
  destruct (fetch_data_returns now_year post start_year end_year) as [df Hdf].
  exists df. split; [done|].
  destruct (fetch_data_cases _ _ _ _ _ Hdf) as [->|(status_code & json_data & _ & Hproc)];
    [constructor|].
  destruct (_process_data_cases _ _ Hproc)
    as [->|(results & series_list & all_data & dated & _ & _ & _ & _ & ->)];
    [constructor|].
  apply (StronglySorted_impl name_date_le).
  - intros a b. apply name_date_le_cases.
  - apply (@StronglySorted_merge_sort _ name_date_le _ name_date_le_trans
             name_date_le_total).
Qed.

(** X2. Every row of a table that [fetch_data] returns comes from an item
    of the response: the item has a period in the monthly interval, the
    Month is the number read after its first character, the Value and the
    Year are the parsed value and year, the Date is the date parsed from
    year, two-digit month and day 01, and the Series Name is the catalog
    name of the series identifier, or the identifier itself when the
    catalog does not have it. *)
Theorem fetch_data_row_provenance `{Builtins} (now_year : Z)
    (post : Payload -> http_result) (start_year end_year : option string)
    (df : list Observation) (r : Observation) :
  fetch_data now_year post start_year end_year = Return df ->
  r ∈ df ->
  exists status_code json_data results series_list s items item year period value,
    post (build_payload now_year start_year end_year)
    = Response status_code (Some json_data)
    /\ Results json_data = Some results /\ series results = Some series_list
    /\ s ∈ series_list /\ seriesID s = Some (Series_ID r)
    /\ data s = Some items /\ item ∈ items
    /\ item_year item = Some year /\ item_period item = Some period
    /\ item_value item = Some value
    /\ String.leb "M01" period && String.leb period "M12" = true
    /\ py_int (tail_from_1 period) = Some (Month r)
    /\ py_float value = Some (Value r)
    /\ py_int year = Some (Year r)
    /\ to_datetime (year +:+ "-" +:+ fmt_02d (Month r) +:+ "-01") = Some (Date r)
    /\ Series_Name r = series_map_get (Series_ID r) (Series_ID r).
Proof.
  intros Hdf Hr.
  destruct (fetch_data_cases _ _ _ _ _ Hdf) as [->|(status_code & json_data & Hpost & Hproc)];
    [by apply elem_of_nil in Hr|].
  destruct (_process_data_cases _ _ Hproc)
    as [->|(results & series_list & all_data & dated & Hres & Hser & Hall & Hdated & ->)];
    [by apply elem_of_nil in Hr|].
  rewrite sort_values_Series_Name_Date_Permutation in Hr.
  destruct (for_each_elem_of _ _ _ _ Hdated Hr) as (raw & rows & Hraw & Hconv & Hr').
  destruct (convert_Date_row _ _ _ Hconv Hr') as [Hdate Heq].
  destruct (for_each_elem_of _ _ _ _ Hall Hraw) as (s & srows & Hs & Hps & Hraw').
  destruct (process_series_row _ _ _ Hps Hraw')
    as (series_id & items & item & item_rows & Hid & Hdata & Hitem & Hpi & Hraw'').
  destruct (process_item_row _ _ _ _ _ Hpi Hraw'')
    as (year & period & value & Hy & Hp & Hv & Hin & Hmonth & Hvalue & Hyear
        & Hd & Hsid & Hname).
  exists status_code, json_data, results, series_list, s, items, item, year, period, value.
  rewrite Heq. simpl. rewrite Hsid, Hname, <- Hd.
  repeat split; done.
Qed.

(** X3. When [_process_data] returns a table, no retained observation is
    missing from it: each item with a period in the monthly interval and a
    parsable value has a row with its series identifier, value, month, year
    and date. *)
Theorem _process_data_keeps_retained `{Builtins} (json_data : Json) (df : list Observation)
    (results : ResultsObj) (series_list : list Series) (s : Series)
    (series_id : string) (items : list Item) (year period value : string) (v : float64) :
  _process_data json_data = Return df ->
  Results json_data = Some results ->
  series results = Some series_list ->
  s ∈ series_list ->
  seriesID s = Some series_id ->
  data s = Some items ->
  mkItem (Some year) (Some period) (Some value) ∈ items ->
  String.leb "M01" period && String.leb period "M12" = true ->
  py_float value = Some v ->
  exists r,
    r ∈ df /\ Series_ID r = series_id
    /\ Series_Name r = series_map_get series_id series_id
    /\ Value r = v
    /\ py_int (tail_from_1 period) = Some (Month r)
    /\ py_int year = Some (Year r)
    /\ to_datetime (year +:+ "-" +:+ fmt_02d (Month r) +:+ "-01") = Some (Date r).
Proof.
  intros Hproc Hres Hser Hs Hid Hdata Hitem Hin Hv.
  unfold _process_data in Hproc. rewrite Hres, Hser in Hproc.
  unfold mbind, result_bind in Hproc.
  destruct (for_each process_series series_list) as [all_data|] eqn:Hall; [|done].
  destruct (for_each_kept _ _ _ _ Hall Hs) as (srows & Hps & Hsub).
  unfold process_series, getitem, mbind, result_bind in Hps.
  rewrite Hid, Hdata in Hps.
  destruct (for_each_kept _ _ _ _ Hps Hitem) as (irows & Hpi & Hsub').
  destruct (process_item_retained _ _ _ _ _ _ _ Hpi Hin Hv)
    as (month & year_int & Hmonth & Hyear & ->).
  set (raw := mkRow series_id (series_map_get series_id series_id)
                (year +:+ "-" +:+ fmt_02d month +:+ "-01") v year_int month) in *.
  assert (Hraw : raw ∈ all_data) by (apply Hsub, Hsub'; left).
  destruct all_data as [|r0 all_data]; [by apply elem_of_nil in Hraw|].
  destruct (for_each convert_Date (r0 :: all_data)) as [dated|] eqn:Hdated; [|done].
  injection Hproc as <-.
  destruct (for_each_kept _ _ _ _ Hdated Hraw) as (crows & Hconv & Hsubc).
  unfold convert_Date in Hconv. simpl in Hconv.
  destruct (to_datetime (year +:+ "-" +:+ fmt_02d month +:+ "-01")) as [d|] eqn:Hd; [|done].
  injection Hconv as <-.
  exists (with_Date raw d). split.
  - rewrite sort_values_Series_Name_Date_Permutation. apply Hsubc. left.
  - by repeat split.
Qed.

(** ** The period filter *)

Lemma period_filter_head (period : string) :
  String.leb "M01" period && String.leb period "M12" = true ->
  exists rest, period = String "M" rest.
Proof.
  destruct period as [|c rest]; [done|].
  unfold String.leb. simpl.
  rewrite (Ascii.compare_antisym c "M").
  destruct (Ascii.compare "M" c) eqn:Hc; simpl.
  - apply Ascii.compare_eq_iff in Hc as <-. by exists rest.
  - done.
  - done.
Qed.

(** X4. An item whose period does not start with the letter M appends no
    row, whatever its year and value: codes of other periodicities are
    skipped without being read. *)
Theorem process_item_other_periodicity `{Builtins} (series_id series_name : string)
    (year period value : string) :
  (forall rest, period <> String "M" rest) ->
  process_item series_id series_name (mkItem (Some year) (Some period) (Some value))
  = Return [].
Proof.
  intros Hhead. apply process_item_outside_interval.
  destruct (String.leb "M01" period && String.leb period "M12") eqn:Hpass; [|done].
  destruct (period_filter_head _ Hpass) as [rest ->]. by destruct (Hhead rest).
Qed.

Lemma process_item_other_periodicity_witness :
  @process_item Reference.builtins "LNS14000000" "Unemployment Rate"
    (mkItem (Some "2024") (Some "Q01") (Some "3.8")) = Return [].
Proof.
  apply (@process_item_other_periodicity Reference.builtins). intros rest. discriminate.
Defined.

Lemma period_filter_two_digit (c : ascii) (a b : nat) :
  (a < 10)%nat -> (b < 10)%nat ->
  String.leb "M01" (String c (String (ascii_of_nat (48 + a))
                                (String (ascii_of_nat (48 + b)) EmptyString)))
  && String.leb (String c (String (ascii_of_nat (48 + a))
                             (String (ascii_of_nat (48 + b)) EmptyString))) "M12" = true
  <-> c = "M"%char /\ (1 <= 10 * a + b <= 12)%nat.
Proof.
  intros Ha Hb. split.
  - intros Hpass.
    destruct (period_filter_head _ Hpass) as [rest [= -> _]].
    split; [done|]. revert Hpass.
    do 10 (destruct a as [|a]; [do 10 (destruct b as [|b]; [vm_compute; first [lia|done]|]); lia|]).
    lia.
  - intros [-> Hrange].
    do 10 (destruct a as [|a]; [do 10 (destruct b as [|b]; [vm_compute; first [done|lia]|]); lia|]).
    lia.
Qed.

(** X5. On a period code made of one character and two decimal digits the
    filter is exact.  Unless the character is M and the digits read a
    number from 1 to 12, the item appends no row; when they do, the item
    appends one row as soon as the month, the value and the year are
    read. *)
Theorem process_item_two_digit_code `{Builtins} (series_id series_name : string)
    (year value : string) (c : ascii) (a b : nat) :
  (a < 10)%nat -> (b < 10)%nat ->
  let period := String c (String (ascii_of_nat (48 + a))
                            (String (ascii_of_nat (48 + b)) EmptyString)) in
  let item := mkItem (Some year) (Some period) (Some value) in
  (~ (c = "M"%char /\ (1 <= 10 * a + b <= 12)%nat) ->
   process_item series_id series_name item = Return [])
  /\ (c = "M"%char /\ (1 <= 10 * a + b <= 12)%nat ->
      forall month float_value year_int,
        py_int (tail_from_1 period) = Some month ->
        py_float value = Some float_value ->
        py_int year = Some year_int ->
        process_item series_id series_name item
        = Return [mkRow series_id series_name
                    (year +:+ "-" +:+ fmt_02d month +:+ "-01")
                    float_value year_int month]).
Proof.
  intros Ha Hb period item.
  pose proof (period_filter_two_digit c a b Ha Hb) as Hfilter. fold period in Hfilter.
  split.
  - intros Hnot. apply process_item_outside_interval.
    destruct (String.leb "M01" period && String.leb period "M12"); [|done].
    destruct Hnot. by apply Hfilter.
  - intros Hin month float_value year_int Hmonth Hvalue Hyear.
    apply Hfilter in Hin.
    unfold process_item, item, int. simpl. simpl in Hmonth.
    rewrite Hin, Hmonth. simpl. rewrite Hvalue, Hyear. done.
Qed.

Lemma process_item_two_digit_code_witness :
  (~ ("M"%char = "M"%char /\ (1 <= 10 * 1 + 3 <= 12)%nat) ->
   @process_item Reference.builtins "LNS14000000" "Unemployment Rate"
     (mkItem (Some "2024") (Some "M13") (Some "3.6")) = Return [])
  /\ ("M"%char = "M"%char /\ (1 <= 10 * 1 + 3 <= 12)%nat ->
      forall month float_value year_int,
        Reference.parse_int (tail_from_1 "M13") = Some month ->
        Reference.parse_float "3.6" = Some float_value ->
        Reference.parse_int "2024" = Some year_int ->
        @process_item Reference.builtins "LNS14000000" "Unemployment Rate"
          (mkItem (Some "2024") (Some "M13") (Some "3.6"))
        = Return [mkRow "LNS14000000" "Unemployment Rate"
                    ("2024" +:+ "-" +:+ fmt_02d month +:+ "-01")
                    float_value year_int month]).
Proof.
  apply (@process_item_two_digit_code Reference.builtins "LNS14000000"
           "Unemployment Rate" "2024" "3.6" "M" 1 3); lia.
Defined.

(** ** The enriched table *)

(** X6. For every series of the table, the rows of that series form one
    block of the result, which holds exactly the rows of the partition,
    sorted by date ascending; inside the block MoM % Change is undefined at
    index 0, which is there, and is [(value[i] / value[i-1] - 1) * 100] at
    every later index. *)
Theorem mom_pct_change_per_series `{Builtins} (df : list Observation) (name : string) :
  name ∈ Series_Name <$> df ->
  exists before block after,
    calculate_changes df = Return (before ++ block ++ after)
    /\ Forall (fun e => Series_Name (base e) <> name) (before ++ after)
    /\ base <$> block = sort_values_Date (filter (in_series name) df)
    /\ base <$> block ≡ₚ filter (in_series name) df
    /\ length block = length (filter (in_series name) df)
    /\ Sorted Date_le (base <$> block)
    /\ (exists first, block !! 0%nat = Some first /\ MoM_pct_Change first = None)
    /\ (forall i prev cur,
          block !! i = Some prev -> block !! S i = Some cur ->
          MoM_pct_Change cur
          = Some (fmul (fsub (fdiv (Value (base cur)) (Value (base prev))) f_1) f_100)).
Proof.
  intros Hin.
  destruct (calculate_changes_block df name Hin) as (before & after & Hcalc & Hout).
  exists before, (process_group (filter (in_series name) df)), after.
  set (group := filter (in_series name) df) in *.
  pose proof (process_group_base group) as Hbase.
  assert (Hperm : sort_values_Date group ≡ₚ group)
    by apply (merge_sort_Permutation Date_le).
  repeat split; try done.
  - by rewrite Hbase.
  - by rewrite <- (length_fmap base), Hbase, Hperm.
  - rewrite Hbase. apply sort_values_Date_Sorted.
  - assert (Hlen : (0 < length (sort_values_Date group))%nat).
    { rewrite Hperm.
      apply list_elem_of_fmap in Hin as (r & -> & Hr).
      assert (Hg : r ∈ group) by (by apply list_elem_of_filter).
      destruct group; [by apply elem_of_nil in Hg | simpl; lia]. }
    apply lookup_lt_is_Some_2 in Hlen as [r Hr].
    eexists. split; [by apply process_group_lookup|]. done.
  - intros i prev cur Hprev Hcur.
    assert (Hp : sort_values_Date group !! i = Some (base prev))
      by (by rewrite <- Hbase, list_lookup_fmap, Hprev).
    assert (Hc : sort_values_Date group !! S i = Some (base cur))
      by (by rewrite <- Hbase, list_lookup_fmap, Hcur).
    rewrite (process_group_lookup _ _ _ Hc) in Hcur.
    injection Hcur as <-. simpl.
    replace (i - 0)%nat with i by lia. by rewrite Hp.
Qed.

Lemma mom_pct_change_per_series_witness :
  exists before block after,
    @calculate_changes Reference.builtins Samples.three_months
    = Return (before ++ block ++ after)
    /\ Forall (fun e => Series_Name (base e) <> "Unemployment Rate") (before ++ after)
    /\ base <$> block
       = sort_values_Date (filter (in_series "Unemployment Rate") Samples.three_months)
    /\ base <$> block ≡ₚ filter (in_series "Unemployment Rate") Samples.three_months
    /\ length block
       = length (filter (in_series "Unemployment Rate") Samples.three_months)
    /\ Sorted Date_le (base <$> block)
    /\ (exists first, block !! 0%nat = Some first /\ MoM_pct_Change first = None)
    /\ (forall i prev cur,
          block !! i = Some prev -> block !! S i = Some cur ->
          MoM_pct_Change cur
          = Some (@fmul Reference.builtins
                    (@fsub Reference.builtins
                       (@fdiv Reference.builtins (Value (base cur)) (Value (base prev)))
                       (@f_1 Reference.builtins))
                    (@f_100 Reference.builtins))).
Proof.
  apply (@mom_pct_change_per_series Reference.builtins Samples.three_months
           "Unemployment Rate").
  simpl. apply list_elem_of_here.
Defined.

Section Order.
Context `{Builtins}.
Implicit Types (df : list Observation) (name : string).

Lemma sort_values_Date_StronglySorted (group : list Observation) :
  StronglySorted Date_le (sort_values_Date group).
Proof.
  apply (@StronglySorted_merge_sort _ Date_le _ Date_le_trans Date_le_total).
Qed.

Lemma group_keys_StronglySorted df : StronglySorted string_le (group_keys df).
Proof.
  apply (@StronglySorted_merge_sort _ string_le _ string_le_trans string_le_total).
Qed.

(** The frame of one group is sorted by name and date: the names are equal
    and the dates ascend. *)
Lemma process_group_sorted df name :
  StronglySorted name_date_le (base <$> process_group (filter (in_series name) df)).
Proof.
  rewrite process_group_base.
  assert (Hnames : Forall (in_series name)
                     (sort_values_Date (filter (in_series name) df))).
  { apply sort_values_Date_in_series, Forall_forall.
    intros r Hr. by apply list_elem_of_filter in Hr as [? _]. }
  pose proof (sort_values_Date_StronglySorted (filter (in_series name) df)) as Hs.
  induction Hs as [|r l _ IH Hr]; [constructor|].
  apply Forall_cons in Hnames as [Hn Hnames].
  constructor; [by apply IH|].
  rewrite Forall_forall in Hr, Hnames. apply Forall_forall. intros r' Hr'.
  apply name_date_le_cases. right. split.
  - unfold in_series in *. by rewrite Hn, (Hnames r' Hr').
  - by apply Hr.
Qed.

Lemma frames_sorted (keys : list string) df :
  StronglySorted string_le keys -> NoDup keys ->
  StronglySorted name_date_le
    (base <$> concat ((fun name => process_group (filter (in_series name) df)) <$> keys)).
Proof.
  induction 1 as [|k keys _ IH Hk]; intros Hnd; [constructor|].
  apply NoDup_cons in Hnd as [Hfresh Hnd].
  simpl. rewrite fmap_app. apply StronglySorted_app_2.
  - intros r1 r2 Hr1 Hr2.
    apply list_elem_of_fmap in Hr1 as (e1 & -> & He1).
    apply list_elem_of_fmap in Hr2 as (e2 & -> & He2).
    apply process_group_in_series in He1.
    apply elem_of_concat in He2 as (l & He2 & Hl).
    apply list_elem_of_fmap in Hl as (k' & -> & Hk').
    apply process_group_in_series in He2.
    apply name_date_le_cases. left. rewrite He1, He2.
    rewrite Forall_forall in Hk.
    destruct (proj1 (string_le_cases k k') (Hk k' Hk')) as [Hlt| ->]; [done|].
    by destruct Hfresh.
  - apply process_group_sorted.
  - by apply IH.
Qed.

End Order.

(** X7. The table [calculate_changes] returns is ordered by series name and,
    within a series, by date: of two rows the earlier one has the smaller
    name or, for the same name, a date that is not later. *)
Theorem calculate_changes_sorted `{Builtins} (df : list Observation)
    (out : list (Enriched float64)) :
  calculate_changes df = Return out ->
  StronglySorted
    (fun a b => String.compare (Series_Name (base a)) (Series_Name (base b)) = Lt
                \/ (Series_Name (base a) = Series_Name (base b)
                    /\ ts_le (Date (base a)) (Date (base b))))
    out.
Proof.
  intros Hout.
  destruct df as [|r df]; [done|].
  rewrite calculate_changes_nonempty in Hout by done. injection Hout as <-.
  pose proof (frames_sorted (group_keys (r :: df)) (r :: df)
                (group_keys_StronglySorted _) (group_keys_NoDup _)) as Hs.
  revert Hs. generalize (concat ((fun name => process_group (filter (in_series name) (r :: df)))
                                   <$> group_keys (r :: df))).
  intros l. induction l as [|e l IH]; [constructor|].
  rewrite fmap_cons. intros [Hl He]%StronglySorted_inv.
  constructor; [by apply IH|].
  rewrite Forall_fmap in He. eapply Forall_impl; [exact He|].
  intros e'. simpl. apply name_date_le_cases.
Qed.

Lemma calculate_changes_sorted_witness :
  exists out,
    @calculate_changes Reference.builtins Samples.table = Return out
    /\ StronglySorted
         (fun a b => String.compare (Series_Name (base a)) (Series_Name (base b)) = Lt
                     \/ (Series_Name (base a) = Series_Name (base b)
                         /\ ts_le (Date (base a)) (Date (base b))))
         out.
Proof.
  eexists. split; [reflexivity|].
  apply (@calculate_changes_sorted Reference.builtins Samples.table). reflexivity.
Defined.

(** ** The latest row *)

Lemma get_latest_metrics_last {F} (rows : list (Enriched F)) (series_name : string) :
  get_latest_metrics (Frame rows) series_name
  = Return (metrics_of <$> last (filter (fun e => in_series series_name (base e)) rows)).
Proof.
  unfold get_latest_metrics.
  destruct (filter _ rows) as [|first rest] eqn:Hs; [done|].
  destruct (exists_last (l := first :: rest)) as (l & x & Hl); [done|].
  rewrite Hl, last_snoc, last_last. done.
Qed.

(** X8. On a table that has its columns, with or without rows, a row
    appended to it becomes the result for its series, with its Date, Value,
    MoM Change, MoM % Change and YoY % Change, and the result for every
    other series name stays what it was. *)
Theorem get_latest_metrics_append {F} (rows : list (Enriched F)) (e : Enriched F)
    (series_name : string) :
  get_latest_metrics (Frame (rows ++ [e])) series_name
  = if decide (Series_Name (base e) = series_name)
    then Return (Some (mkMetrics _ (Date (base e)) (Value (base e))
                         (MoM_Change e) (MoM_pct_Change e) (YoY_pct_Change e)))
    else get_latest_metrics (Frame rows) series_name.
Proof.
  rewrite !get_latest_metrics_last, filter_app, filter_cons, filter_nil.
  unfold in_series at 2.
  destruct (decide (Series_Name (base e) = series_name)).
  - by rewrite last_snoc.
  - by rewrite app_nil_r.
Qed.

Lemma ts_le_refl (a : Timestamp) : ts_le a a.
Proof. by destruct (ts_le_total a a). Qed.

(** X9. On the table that [calculate_changes] returns, [get_latest_metrics]
    gives for every series of the input the date and value of one of its
    input rows, and no input row of the series has a later date. *)
Theorem latest_after_calculate_changes `{Builtins} (df : list Observation)
    (out : list (Enriched float64)) (name : string) :
  calculate_changes df = Return out ->
  name ∈ Series_Name <$> df ->
  exists m,
    get_latest_metrics (Frame out) name = Return (Some m)
    /\ (exists r, r ∈ df /\ Series_Name r = name /\ Date r = date m /\ Value r = value m)
    /\ (forall r, r ∈ df -> Series_Name r = name -> ts_le (Date r) (date m)).
Proof.
  intros Hout Hin.
  destruct (calculate_changes_block df name Hin) as (before & after & Hcalc & Hrest).
  rewrite Hout in Hcalc. injection Hcalc as ->.
  set (group := filter (in_series name) df) in *.
  assert (Hsel : filter (fun e => in_series name (base e)) (before ++ process_group group ++ after)
                 = process_group group).
  { apply Forall_app in Hrest as [Hb Ha].
    rewrite !filter_app, (filter_none _ before), (filter_none _ after), app_nil_r; [|done..].
    apply filter_all, Forall_forall. intros e. apply process_group_in_series. }
  rewrite get_latest_metrics_last, Hsel.
  assert (Hperm : base <$> process_group group ≡ₚ group).
  { rewrite process_group_base. apply (merge_sort_Permutation Date_le). }
  assert (Hgroup : forall r, r ∈ group <-> r ∈ df /\ Series_Name r = name).
  { intros r. unfold group. rewrite list_elem_of_filter. unfold in_series. tauto. }
  destruct (process_group group) as [|e0 frame] eqn:Hblock.
  { apply list_elem_of_fmap in Hin as (r & -> & Hr).
    assert (Hg : r ∈ group) by (by apply Hgroup).
    rewrite <- Hperm in Hg. by apply elem_of_nil in Hg. }
  destruct (exists_last (l := e0 :: frame)) as (block & latest & Hl); [done|].
  rewrite Hl in *. clear Hl e0 frame.
  rewrite last_snoc. simpl. eexists. split; [done|].
  pose proof (sort_values_Date_StronglySorted group) as Hs.
  rewrite <- process_group_base, Hblock, fmap_app in Hs. simpl in Hs. split.
  - exists (base latest).
    assert (Hl : base latest ∈ group).
    { rewrite <- Hperm, fmap_app. apply elem_of_app. right. left. }
    apply Hgroup in Hl as [? ?]. done.
  - intros r Hr Hn.
    assert (Hg : r ∈ base <$> (block ++ [latest])) by (rewrite Hperm; by apply Hgroup).
    rewrite fmap_app in Hg. apply elem_of_app in Hg as [Hg|Hg].
    + apply (StronglySorted_app_1_elem_of Date_le _ _ r (base latest) Hs Hg). left.
    + apply list_elem_of_singleton in Hg as ->. apply ts_le_refl.
Qed.

Lemma latest_after_calculate_changes_witness :
  exists out m,
    @calculate_changes Reference.builtins Samples.table = Return out
    /\ get_latest_metrics (Frame out) "Unemployment Rate" = Return (Some m)
    /\ (exists r, r ∈ Samples.table /\ Series_Name r = "Unemployment Rate"
                  /\ Date r = date m /\ Value r = value m)
    /\ (forall r, r ∈ Samples.table -> Series_Name r = "Unemployment Rate" ->
                  ts_le (Date r) (date m)).
Proof.
  destruct (@calculate_changes Reference.builtins Samples.table) as [out|] eqn:Hout;
    [|vm_compute in Hout; discriminate Hout].
  destruct (@latest_after_calculate_changes Reference.builtins Samples.table out
              "Unemployment Rate" Hout) as (m & Hm & Hrest).
  - simpl. apply list_elem_of_here.
  - by exists out, m.
Defined.

(** ** The guarded pipeline *)

(** X10. [load_data] never raises: it returns the empty table when the
    fetch gives none, and otherwise a table with the same number of rows
    whose rows without the new columns are a rearrangement of the fetched
    ones. *)
Theorem load_data_returns `{Builtins} (now_year : Z) (post : Payload -> http_result) :
  exists df out,
    fetch_data now_year post None None = Return df
    /\ load_data now_year post = Return out
    /\ length out = length df
    /\ base <$> out ≡ₚ df.
Proof.
  destruct (fetch_data_returns now_year post None None) as [df Hdf].
  unfold load_data. rewrite Hdf. simpl.
  destruct df as [|r df]; [by exists [], []|].
  rewrite calculate_changes_nonempty by done.
  eexists _, _. split; [done|]. split; [done|].
  assert (Hperm : base <$> concat ((fun name => process_group
                     (filter (in_series name) (r :: df))) <$> group_keys (r :: df))
                  ≡ₚ r :: df).
  { rewrite base_concat_frames. apply groups_cover. }
  split; [|done]. by rewrite <- (length_fmap base), Hperm.
Qed.

(** ** Independence of the stored order *)

Section StoredOrder.
Context `{Builtins}.
Implicit Types (df : list Observation) (name : string).

Lemma group_keys_Permutation df1 df2 : df1 ≡ₚ df2 -> group_keys df1 = group_keys df2.
Proof.
  intros Hperm.
  apply (@StronglySorted_unique _ string_le string_le_antisym);
    [apply group_keys_StronglySorted..|].
  apply NoDup_Permutation; [apply group_keys_NoDup..|].
  intros name. rewrite !elem_of_group_keys. by rewrite Hperm.
Qed.

Lemma NoDup_fmap_elem_of {A B} (f : A -> B) (l : list A) x y :
  NoDup (f <$> l) -> x ∈ l -> y ∈ l -> f x = f y -> x = y.
Proof.
  induction l as [|z l IH]; [by intros _ ?%elem_of_nil|].
  rewrite fmap_cons. intros [Hz Hnd]%NoDup_cons Hx Hy Heq.
  apply elem_of_cons in Hx as [->|Hx]; apply elem_of_cons in Hy as [->|Hy]; try done.
  - destruct Hz. rewrite Heq. apply list_elem_of_fmap. eauto.
  - destruct Hz. rewrite <- Heq. apply list_elem_of_fmap. eauto.
  - by apply IH.
Qed.

(** Two groups with the same rows and no repeated date sort to one list. *)
Lemma sort_values_Date_Permutation (g1 g2 : list Observation) :
  g1 ≡ₚ g2 -> NoDup (Date <$> g1) -> sort_values_Date g1 = sort_values_Date g2.
Proof.
  intros Hperm Hnd.
  assert (H1 : sort_values_Date g1 ≡ₚ g1) by apply (merge_sort_Permutation Date_le).
  assert (H2 : sort_values_Date g2 ≡ₚ g2) by apply (merge_sort_Permutation Date_le).
  apply (StronglySorted_unique_strong Date_le);
    [|apply sort_values_Date_StronglySorted..|by rewrite H1, H2].
  intros x1 x2 Hx1 Hx2 H12 H21.
  rewrite H1 in Hx1. rewrite H2, <- Hperm in Hx2.
  apply (NoDup_fmap_elem_of Date g1); [done..|].
  by apply ts_le_antisym.
Qed.

Lemma process_group_sort (g1 g2 : list Observation) :
  sort_values_Date g1 = sort_values_Date g2 -> process_group g1 = process_group g2.
Proof. intros Heq. unfold process_group. by rewrite Heq. Qed.

End StoredOrder.

(** X11. The result of [calculate_changes] does not depend on the order in
    which the rows are stored, provided no series has two rows of one
    date. *)
Theorem calculate_changes_stored_order `{Builtins} (df1 df2 : list Observation) :
  df1 ≡ₚ df2 ->
  (forall name, NoDup (Date <$> filter (in_series name) df1)) ->
  calculate_changes df1 = calculate_changes df2.
Proof.
  intros Hperm Hnd.
  destruct df1 as [|r1 df1].
  { apply Permutation_nil_l in Hperm. by subst. }
  assert (Hne : df2 <> []).
  { intros ->. by apply Permutation_nil_r in Hperm. }
  rewrite !calculate_changes_nonempty by done.
  rewrite (group_keys_Permutation _ _ Hperm). do 2 f_equal.
  apply list_fmap_ext. intros _ name _.
  apply process_group_sort, sort_values_Date_Permutation; [|apply Hnd].
  by rewrite Hperm.
Qed.

Lemma calculate_changes_stored_order_witness :
  @calculate_changes Reference.builtins Inputs.stored
  = @calculate_changes Reference.builtins Inputs.reordered.
Proof.
  apply (@calculate_changes_stored_order Reference.builtins Inputs.stored Inputs.reordered).
  - unfold Inputs.stored, Inputs.reordered.
    apply (Permutation_cons_app [_; _] [_]).
    apply (Permutation_cons_app [_; _] []).
    apply (Permutation_cons_app [_] []).
    reflexivity.
  - intros name. unfold Inputs.stored.
    rewrite !filter_cons, filter_nil. unfold in_series, Samples.row. simpl.
    repeat case_decide; simpl; repeat constructor;
      rewrite ?elem_of_cons, ?elem_of_nil; intuition congruence.
Defined.

(** ** Soft errors and unparsable values *)

(** X12. When the body has a [message] key, a status other than success
    changes nothing: [fetch_data] returns what it returns for the same body
    with the success status. *)
Theorem status_ignored_when_message_present `{Builtins} (now_year : Z)
    (post post_ok : Payload -> http_result) (start_year end_year : option string)
    (status_code : Z) (json_data : Json) (st : string) :
  post (build_payload now_year start_year end_year)
  = Response status_code (Some json_data) ->
  post_ok (build_payload now_year start_year end_year)
  = Response status_code
      (Some (mkJson (Some "REQUEST_SUCCEEDED") (message json_data) (Results json_data))) ->
  status json_data = Some st ->
  is_Some (message json_data) ->
  fetch_data now_year post start_year end_year
  = fetch_data now_year post_ok start_year end_year.
Proof.
  intros Hpost Hok Hst [m Hm]. unfold fetch_data, request. rewrite Hpost, Hok.
  destruct (raise_for_status status_code); [|done].
  simpl. rewrite Hst. simpl.
  destruct (String.eqb st "REQUEST_SUCCEEDED"); [done|].
  by rewrite Hm.
Qed.

Lemma status_ignored_when_message_present_witness :
  Samples.fetch (Response 200 (Some Samples.soft_error_with_message))
  = Samples.fetch (Response 200 (Some (mkJson (Some "REQUEST_SUCCEEDED")
                     (message Samples.soft_error_with_message)
                     (Results Samples.soft_error_with_message)))).
Proof.
  apply (@status_ignored_when_message_present Reference.builtins 2026
           (fun _ => Response 200 (Some Samples.soft_error_with_message))
           (fun _ => Response 200 (Some (mkJson (Some "REQUEST_SUCCEEDED")
                     (message Samples.soft_error_with_message)
                     (Results Samples.soft_error_with_message))))
           None None 200 Samples.soft_error_with_message "REQUEST_NOT_PROCESSED").
  - reflexivity.
  - reflexivity.
  - reflexivity.
  - simpl. by eexists.
Defined.

Lemma for_each_congr {A B} (body : A -> result (list B)) (l1 l2 : list A) x x' :
  body x = body x' -> for_each body (l1 ++ x :: l2) = for_each body (l1 ++ x' :: l2).
Proof.
  intros Hx. induction l1 as [|y l1 IH]; simpl.
  - by rewrite Hx.
  - by rewrite IH.
Qed.

(** X13. An item whose value does not parse can be taken out of the
    response without changing what [_process_data] gives, provided its
    period is outside the monthly interval or the month can be read from
    it: every other observation of the series and of the batch is kept. *)
Theorem unparsable_value_dropped_alone `{Builtins}
    (st : option string) (msg : option (list string))
    (before after : list Series) (series_id : option string)
    (items1 items2 : list Item) (year period value : string) :
  py_float value = None ->
  (String.leb "M01" period && String.leb period "M12" = true ->
   is_Some (py_int (tail_from_1 period))) ->
  _process_data
    (mkJson st msg (Some (mkResults (Some
       (before
        ++ mkSeries series_id
             (Some (items1 ++ mkItem (Some year) (Some period) (Some value) :: items2))
        :: after)))))
  = _process_data
      (mkJson st msg (Some (mkResults (Some
         (before ++ mkSeries series_id (Some (items1 ++ items2)) :: after))))).
Proof.
  intros Hvalue Hmonth. unfold _process_data. simpl.
  rewrite (for_each_congr process_series before after
             (mkSeries series_id
                (Some (items1 ++ mkItem (Some year) (Some period) (Some value) :: items2)))
             (mkSeries series_id (Some (items1 ++ items2)))); [done|].
  unfold process_series. simpl.
  destruct series_id as [sid|]; [|done]. simpl.
  apply for_each_skip. by apply process_item_unparsable_value.
Qed.

Lemma unparsable_value_dropped_alone_witness :
  @_process_data Reference.builtins Samples.value_NA
  = @_process_data Reference.builtins Samples.one_observation.
Proof.
  apply (@unparsable_value_dropped_alone Reference.builtins
           (Some "REQUEST_SUCCEEDED") (Some []) [] [] (Some "LNS14000000")
           [Samples.item "2024" "M01" "3.7"] [] "2024" "M02" "N/A").
  - reflexivity.
  - intros _. by eexists.
Defined.

Lemma fetch_data_row_provenance_witness :
  exists status_code json_data results series_list s items item year period value,
    Response 200 (Some Inputs.two_series) = Response status_code (Some json_data)
    /\ Results json_data = Some results /\ series results = Some series_list
    /\ s ∈ series_list /\ seriesID s = Some "XYZ"
    /\ data s = Some items /\ item ∈ items
    /\ item_year item = Some year /\ item_period item = Some period
    /\ item_value item = Some value
    /\ String.leb "M01" period && String.leb period "M12" = true
    /\ Reference.parse_int (tail_from_1 period) = Some 11
    /\ Reference.parse_float value = Some 5.1%Q
    /\ Reference.parse_int year = Some 2023
    /\ Reference.parse_iso_date (year +:+ "-" +:+ fmt_02d 11 +:+ "-01")
       = Some (mkTimestamp 2023 11 1)
    /\ "XYZ" = series_map_get "XYZ" "XYZ".
Proof.
  apply (@fetch_data_row_provenance Reference.builtins 2026
           (fun _ => Response 200 (Some Inputs.two_series)) None None
           [mkRow "LNS14000000" "Unemployment Rate" (mkTimestamp 2024 1 1) 3.7%Q 2024 1;
            mkRow "LNS14000000" "Unemployment Rate" (mkTimestamp 2024 2 1) 3.9%Q 2024 2;
            mkRow "XYZ" "XYZ" (mkTimestamp 2023 11 1) 5.1%Q 2023 11]
           (mkRow "XYZ" "XYZ" (mkTimestamp 2023 11 1) 5.1%Q 2023 11)).
  - reflexivity.
  - do 2 apply list_elem_of_further. apply list_elem_of_here.
Defined.

Lemma _process_data_keeps_retained_witness :
  exists r,
    r ∈ [mkRow "LNS14000000" "Unemployment Rate" (mkTimestamp 2024 1 1) 3.7%Q 2024 1;
         mkRow "LNS14000000" "Unemployment Rate" (mkTimestamp 2024 2 1) 3.9%Q 2024 2;
         mkRow "XYZ" "XYZ" (mkTimestamp 2023 11 1) 5.1%Q 2023 11]
    /\ Series_ID r = "XYZ"
    /\ Series_Name r = series_map_get "XYZ" "XYZ"
    /\ Value r = 5.1%Q
    /\ Reference.parse_int (tail_from_1 "M11") = Some (Month r)
    /\ Reference.parse_int "2023" = Some (Year r)
    /\ Reference.parse_iso_date ("2023" +:+ "-" +:+ fmt_02d (Month r) +:+ "-01")
       = Some (Date r).
Proof.
  apply (@_process_data_keeps_retained Reference.builtins Inputs.two_series _
           (mkResults (Some
             [ Samples.unemployment [Samples.item "2024" "M02" "3.9";
                                     Samples.item "2024" "M01" "3.7"];
               mkSeries (Some "XYZ") (Some [Samples.item "2023" "M13" "5.0";
                                            Samples.item "2023" "M12" "-";
                                            Samples.item "2023" "M11" "5.1"]) ]))
           [ Samples.unemployment [Samples.item "2024" "M02" "3.9";
                                   Samples.item "2024" "M01" "3.7"];
             mkSeries (Some "XYZ") (Some [Samples.item "2023" "M13" "5.0";
                                          Samples.item "2023" "M12" "-";
                                          Samples.item "2023" "M11" "5.1"]) ]
           (mkSeries (Some "XYZ") (Some [Samples.item "2023" "M13" "5.0";
                                         Samples.item "2023" "M12" "-";
                                         Samples.item "2023" "M11" "5.1"]))
           "XYZ"
           [Samples.item "2023" "M13" "5.0"; Samples.item "2023" "M12" "-";
            Samples.item "2023" "M11" "5.1"]
           "2023" "M11" "5.1" 5.1%Q).
  - reflexivity.
  - reflexivity.
  - reflexivity.
  - apply list_elem_of_further, list_elem_of_here.
  - reflexivity.
  - reflexivity.
  - do 2 apply list_elem_of_further. apply list_elem_of_here.
  - reflexivity.
  - reflexivity.
Defined.
